(** * libtvdb: the TVDB client (src/libtvdb/__init__.py)

    A shallow embedding of [TVDBClient]: construction, [authenticate],
    [get] and [search_show], together with the parts of Python, [requests]
    and [urllib] they rest on.  Methods that touch [self], the network or
    the log are computations in a state-and-exception monad; the network is
    an oracle that answers a request given the requests sent before it. *)

From Stdlib Require Import ZArith String Ascii List Bool QArith Lia DecimalString.
Import ListNotations.
Local Open Scope string_scope.
Local Open Scope Z_scope.
Local Set Warnings "-register-all".

(** ** Python values *)

(** What [json.loads] produces; [JNull] is Python's [None].  A [dict] is kept
    as the list of its items in insertion order (its keys are distinct), a
    [float] as its literal.  A [str] is kept as its UTF-8 encoding. *)
Inductive json : Type :=
| JNull
| JBool (b : bool)
| JInt (z : Z)
| JFloat (literal : string)
| JStr (s : string)
| JList (items : list json)
| JDict (items : list (string * json)).

(** [v is None] *)
Definition is_None (v : json) : bool :=
  match v with JNull => true | _ => false end.

(** [v == s] for a [str] literal [s]: equal only to that very string. *)
Definition eq_str (v : json) (s : string) : bool :=
  match v with JStr t => String.eqb t s | _ => false end.

(** [type(v).__name__] *)
Definition type_name (v : json) : string :=
  match v with
  | JNull => "NoneType"
  | JBool _ => "bool"
  | JInt _ => "int"
  | JFloat _ => "float"
  | JStr _ => "str"
  | JList _ => "list"
  | JDict _ => "dict"
  end.

(** [str(n)] for an [int]. *)
Definition str_of_int (n : Z) : string := NilZero.string_of_int (Z.to_int n).

(** ** Exceptions *)

(** The classes of [requests.exceptions] a transport call raises.
    [ConnectTimeout] and [ReadTimeout] derive from [Timeout]. *)
Inductive RequestException : Type :=
| Timeout
| ConnectTimeout
| ReadTimeout
| ConnectionError
| SSLError
| ProxyError
| HTTPError
| TooManyRedirects
| ChunkedEncodingError.

(** [isinstance(e, requests.exceptions.Timeout)] *)
Definition isinstance_Timeout (e : RequestException) : bool :=
  match e with
  | Timeout | ConnectTimeout | ReadTimeout => true
  | _ => false
  end.

(** What a call of the client raises.  [TVDBException], [NotFoundException]
    and [TVDBAuthenticationException] are the classes of [libtvdb.exceptions];
    the others are Python's and [requests]'s own. *)
Inductive Exc : Type :=
| Exception_ (msg : string)
| AttributeError (msg : string)
| TypeError (msg : string)
| UnboundLocalError (msg : string)
| JSONDecodeError
| Requests (e : RequestException)
| TVDBException (msg : string)
| NotFoundException (msg : string)
| TVDBAuthenticationException (msg : string).

(** ** Requests and responses *)

Inductive Method : Type := POST | GET.

(** A header value: a literal, or [f"Bearer {token}"] with the token kept as
    the value it formats. *)
Inductive HeaderValue : Type :=
| Lit (s : string)
| Bearer (token : json).

Definition Headers : Type := list (string * HeaderValue).

Record Request : Type := mkRequest {
  meth : Method;
  url : string;
  json_body : option json;
  headers : Headers;
  timeout : Q (* seconds, passed through to the transport *)
}.

(** A [requests.Response]: [resp_json] is what [response.json()] returns,
    [None] when it raises [json.JSONDecodeError]. *)
Record Response : Type := mkResponse {
  status_code : Z;
  text : string;
  resp_json : option json
}.

(** How a transport call ends. *)
Inductive Outcome : Type :=
| Responded (r : Response)
| Raised (e : RequestException).

Definition is_GET (r : Request) : bool :=
  match meth r with GET => true | POST => false end.

Definition is_POST (r : Request) : bool :=
  match meth r with POST => true | GET => false end.

(** ** The client and its surroundings *)

Record TVDBClient : Type := mkClient {
  api_key : string;
  user_key : string;
  user_name : string;
  auth_token : json (* [JNull] until authenticated *)
}.

Inductive Level : Type := DEBUG | INFO | WARNING | ERROR.

(** The client, the requests sent so far (oldest first) and the messages
    handed to [Log]. *)
Record Sys : Type := mkSys {
  self : TVDBClient;
  sent : list Request;
  logged : list (Level * string)
}.

Module Constants.

Definition AUTH_TIMEOUT : Q := 3.

Definition MAX_AUTH_RETRY_COUNT : Z := 3.

End Constants.

Definition _BASE_API : string := "https://api.thetvdb.com".

(** ** The monad of methods *)

Definition M (A : Type) : Type := Sys -> (Exc + A) * Sys.

Definition ret {A} (a : A) : M A := fun s => (inr a, s).

Definition raise {A} (e : Exc) : M A := fun s => (inl e, s).

Definition bind {A B} (m : M A) (k : A -> M B) : M B :=
  fun s =>
    match m s with
    | (inl e, s') => (inl e, s')
    | (inr a, s') => k a s'
    end.

Declare Scope py_scope.
Delimit Scope py_scope with py.
Notation "x <- m ;; k" := (bind m (fun x => k))
  (at level 61, m at next level, right associativity) : py_scope.
Notation "m ;; k" := (bind m (fun _ => k))
  (at level 61, right associativity) : py_scope.
Local Open Scope py_scope.

(** [self.auth_token] *)
Definition read_auth_token : M json := fun s => (inr (auth_token (self s)), s).

(** [self.auth_token = token] *)
Definition set_auth_token (token : json) : M unit := fun s =>
  (inr tt,
   mkSys (mkClient (api_key (self s)) (user_key (self s)) (user_name (self s)) token)
         (sent s) (logged s)).

(** [self.api_key], [self.user_key], [self.user_name] *)
Definition read_self : M TVDBClient := fun s => (inr (self s), s).

(** [Log.debug], [Log.info], [Log.warning], [Log.error] *)
Definition Log (l : Level) (msg : string) : M unit := fun s =>
  (inr tt, mkSys (self s) (sent s) (logged s ++ [(l, msg)])).

(** [e] raised or [a] returned by a pure helper. *)
Definition lift {A} (r : Exc + A) : M A :=
  match r with inl e => raise e | inr a => ret a end.

(** ** Python and library helpers *)

(** [range(lo, hi)] *)
Definition range (lo hi : Z) : list Z :=
  map (fun k => lo + Z.of_nat k) (seq 0 (Z.to_nat (hi - lo))).

(** The value bound to [key] among the items of a [dict]. *)
Fixpoint lookup (items : list (string * json)) (key : string) : option json :=
  match items with
  | [] => None
  | (k, v) :: rest => if String.eqb k key then Some v else lookup rest key
  end.

(** [v.get(key)]: only a [dict] has [get]; a missing key gives [None]. *)
Definition py_get (v : json) (key : string) : Exc + json :=
  match v with
  | JDict items =>
      inr (match lookup items key with Some x => x | None => JNull end)
  | _ => inl (AttributeError ("'" ++ type_name v ++ "' object has no attribute 'get'"))
  end.

(** UTF-8 continuation bytes are [0x80..0xBF]. *)
Definition is_continuation (a : ascii) : bool :=
  let n := nat_of_ascii a in (Nat.leb 128 n && Nat.ltb n 192)%bool.

(** The continuation bytes [s] starts with, and the characters after them. *)
Fixpoint split_chars (s : string) : string * list string :=
  match s with
  | EmptyString => (EmptyString, [])
  | String a rest =>
      let (pending, chars) := split_chars rest in
      if is_continuation a then (String a pending, chars)
      else (EmptyString, String a pending :: chars)
  end.

(** The characters of a [str]. *)
Definition chars (s : string) : list string := snd (split_chars s).

(** What [for x in v] visits: the elements of a [list], the keys of a
    [dict], the characters of a [str]; nothing else here is iterable. *)
Definition py_iter (v : json) : Exc + list json :=
  match v with
  | JList items => inr items
  | JDict items => inr (map (fun kv => JStr (fst kv)) items)
  | JStr s => inr (map JStr (chars s))
  | _ => inl (TypeError ("'" ++ type_name v ++ "' object is not iterable"))
  end.

(** [response.json()] *)
Definition response_json (r : Response) : Exc + json :=
  match resp_json r with
  | Some j => inr j
  | None => inl JSONDecodeError
  end.

(** [urllib.parse.quote(s)] with its default [safe='/']: every byte of the
    UTF-8 encoding outside [A-Za-z0-9_.-~/] becomes [%XX]. *)
Definition always_safe (a : ascii) : bool :=
  let n := nat_of_ascii a in
  ((Nat.leb 65 n && Nat.leb n 90) || (Nat.leb 97 n && Nat.leb n 122)
   || (Nat.leb 48 n && Nat.leb n 57)
   || Ascii.eqb a "_" || Ascii.eqb a "." || Ascii.eqb a "-" || Ascii.eqb a "~"
   || Ascii.eqb a "/")%bool.

Definition hex_digit (n : nat) : ascii :=
  match String.get n "0123456789ABCDEF" with Some c => c | None => "0"%char end.

Definition quote_byte (a : ascii) : string :=
  if always_safe a then String a EmptyString
  else let n := nat_of_ascii a in
       String "%" (String (hex_digit (Nat.div n 16))
                          (String (hex_digit (Nat.modulo n 16)) EmptyString)).

Fixpoint quote (s : string) : string :=
  match s with
  | EmptyString => EmptyString
  | String a rest => quote_byte a ++ quote rest
  end.

(** [headers[name] = value] *)
Fixpoint dict_set (d : Headers) (name : string) (value : HeaderValue) : Headers :=
  match d with
  | [] => [(name, value)]
  | (k, v) :: rest =>
      if String.eqb k name then (k, value) :: rest
      else (k, v) :: dict_set rest name value
  end.

(** [TVDBClient._expand_url] *)
Definition _expand_url (path : string) : string := _BASE_API ++ "/" ++ path.

(** [TVDBClient._construct_headers] *)
Definition _construct_headers (additional_headers : option Headers) : M Headers :=
  token <- read_auth_token ;;
  let headers := [("Accept", Lit "application/json")] in
  let headers :=
    if negb (is_None token) then dict_set headers "Authorization" (Bearer token)
    else headers in
  match additional_headers with
  | None => ret headers
  | Some more =>
      ret (fold_left (fun h kv => dict_set h (fst kv) (snd kv)) more headers)
  end.

(** [try: m except <matches>: handler] *)
Definition try_except {A} (m : M A) (matches : Exc -> bool) (handler : M A) : M A :=
  fun s =>
    match m s with
    | (inl e, s') => if matches e then handler s' else (inl e, s')
    | (inr a, s') => (inr a, s')
    end.

(** [except requests.exceptions.Timeout] *)
Definition except_Timeout (e : Exc) : bool :=
  match e with
  | Requests r => isinstance_Timeout r
  | _ => false
  end.

(** ** The client *)

Section Client.

(** The network: what [requests.post] / [requests.get] does with a request,
    given the requests sent before it. *)
Variable transport : list Request -> Request -> Outcome.

(** [keyper.get_password(label=...)]: the keychain, [None] when it holds no
    such entry. *)
Variable get_password : string -> option string.

(** [libtvdb.model.show.Show] and its constructor [Show.from_json]. *)
Variable Show : Type.
Variable from_json : json -> Exc + Show.

(** [requests.post] and [requests.get]: the request is recorded, and the
    transport's exception, if any, is raised. *)
Definition send (req : Request) : M Response := fun s =>
  let s' := mkSys (self s) (sent s ++ [req]) (logged s) in
  match transport (sent s) req with
  | Responded r => (inr r, s')
  | Raised e => (inl (Requests e), s')
  end.

Definition requests_post (u : string) (body : json) (h : Headers) (t : Q) : M Response :=
  send (mkRequest POST u (Some body) h t).

Definition requests_get (u : string) (h : Headers) (t : Q) : M Response :=
  send (mkRequest GET u None h t).

(** [TVDBClient.__init__] *)
Definition __init__ (api_key user_key user_name : option string) : Exc + TVDBClient :=
  let api_key :=
    match api_key with None => get_password "libtvdb_api_key" | Some _ => api_key end in
  match api_key with
  | None => inl (Exception_ "No API key was supplied or could be found in the keychain")
  | Some api_key =>
    let user_key :=
      match user_key with None => get_password "libtvdb_user_key" | Some _ => user_key end in
    match user_key with
    | None => inl (Exception_ "No user key was supplied or could be found in the keychain")
    | Some user_key =>
      let user_name :=
        match user_name with None => get_password "libtvdb_user_name" | Some _ => user_name end in
      match user_name with
      | None => inl (Exception_ "No user name was supplied or could be found in the keychain")
      | Some user_name => inr (mkClient api_key user_key user_name JNull)
      end
    end
  end.

(** The retry loop of [authenticate], [for i in range(0, MAX_AUTH_RETRY_COUNT)]
    over the indices still to visit: [Some response] when an iteration breaks
    out, [None] when the indices run out, which leaves [response] unbound. *)
Fixpoint login_loop (indices : list Z) (login_body : json) : M (option Response) :=
  match indices with
  | [] => ret None
  | i :: rest =>
      step <- try_except
                (h <- _construct_headers None ;;
                 response <- requests_post (_expand_url "login") login_body h
                               Constants.AUTH_TIMEOUT ;;
                 ret (Some response))
                except_Timeout
                (let will_retry := i <? Constants.MAX_AUTH_RETRY_COUNT - 1 in
                 if will_retry then
                   Log WARNING "Authentication timed out, but will retry." ;;
                   ret None
                 else
                   Log ERROR "Authentication timed out maximum number of times." ;;
                   raise (Exception_ "Authentication timed out maximum number of times.")) ;;
      match step with
      | Some response => ret (Some response)
      | None => login_loop rest login_body
      end
  end.

(** [TVDBClient.authenticate] *)
Definition authenticate : M unit :=
  held <- read_auth_token ;;
  if negb (is_None held) then
    Log DEBUG "Already authenticated, skipping"
  else
    Log INFO "Authenticating..." ;;
    c <- read_self ;;
    let login_body :=
      JDict [("apikey", JStr (api_key c));
             ("userkey", JStr (user_key c));
             ("username", JStr (user_name c))] in
    bound <- login_loop (range 0 Constants.MAX_AUTH_RETRY_COUNT) login_body ;;
    match bound with
    | None =>
        raise (UnboundLocalError "local variable 'response' referenced before assignment")
    | Some response =>
        if (status_code response <? 200) || (status_code response >=? 300) then
          Log ERROR ("Authentication failed withs status code: "
                       ++ str_of_int (status_code response)) ;;
          raise (TVDBAuthenticationException
                   ("Authentication failed with status code: "
                      ++ str_of_int (status_code response)))
        else
          content <- lift (response_json response) ;;
          token <- lift (py_get content "token") ;;
          if is_None token then
            Log ERROR "Failed to get token from login request" ;;
            raise (TVDBAuthenticationException "Failed to get token from login request")
          else
            set_auth_token token ;;
            Log INFO "Authenticated successfully"
    end.

(** [TVDBClient.get] *)
Definition get (url_path : option string) (timeout : Q) : M json :=
  match url_path with
  | None | Some EmptyString => raise (AttributeError "An invalid URL path was supplied")
  | Some path =>
      authenticate ;;
      Log INFO ("GET: " ++ path) ;;
      h <- _construct_headers None ;;
      response <- requests_get (_expand_url path) h timeout ;;
      if (status_code response <? 200) || (status_code response >=? 300) then
        data <- try_except (lift (response_json response))
                  (fun e => match e with JSONDecodeError => true | _ => false end)
                  (raise (TVDBException
                            ("Could not decode error response: " ++ text response))) ;;
        error <- lift (py_get data "Error") ;;
        if is_None error then
          raise (TVDBException ("Could not get error information: " ++ text response))
        else if eq_str error "Resource not found" then
          raise (NotFoundException ("Could not find resource for path: " ++ path))
        else
          raise (TVDBException ("Unknown error: " ++ text response))
      else
        content <- lift (response_json response) ;;
        data <- lift (py_get content "data") ;;
        if is_None data then
          raise (NotFoundException ("Could not get data for path: " ++ path))
        else
          ret data
  end.

(** The loop of [search_show]: [shows.append(Show.from_json(show_data))] for
    each [show_data]. *)
Fixpoint collect_shows (shows_data : list json) (shows : list Show) : M (list Show) :=
  match shows_data with
  | [] => ret shows
  | show_data :: rest =>
      show <- lift (from_json show_data) ;;
      collect_shows rest (shows ++ [show])
  end.

(** [TVDBClient.search_show] *)
Definition search_show (show_name : option string) (timeout : Q) : M (list Show) :=
  match show_name with
  | None | Some EmptyString => ret []
  | Some name =>
      let encoded_name := quote name in
      Log INFO ("Searching for show: " ++ name) ;;
      shows_data <- get (Some ("search/series?name=" ++ encoded_name)) timeout ;;
      items <- lift (py_iter shows_data) ;;
      collect_shows items []
  end.

End Client.

(** ** Lookups by identifier *)

Section Lookups.

Variable transport : list Request -> Request -> Outcome.

(** [libtvdb.model.show.Show], its constructor [Show.from_json] and its
    field [identifier]. *)
Variable Show : Type.
Variable from_json : json -> Exc + Show.
Variable identifier : Show -> Z.

(** [libtvdb.model.actor.Actor] and [deserialize.deserialize(Actor, item)]. *)
Variable Actor : Type.
Variable deserialize_Actor : json -> Exc + Actor.

(** [TVDBClient.show_info] *)
Definition show_info (show_identifier : Z) (timeout : Q) : M Show :=
  Log INFO ("Fetching data for show: " ++ str_of_int show_identifier) ;;
  show_data <- get transport (Some ("series/" ++ str_of_int show_identifier)) timeout ;;
  lift (from_json show_data).

(** The loop of [actors_from_show_id]:
    [actors.append(deserialize.deserialize(Actor, actor_data_item))] for each
    [actor_data_item]. *)
Fixpoint collect_actors (actor_data : list json) (actors : list Actor) : M (list Actor) :=
  match actor_data with
  | [] => ret actors
  | actor_data_item :: rest =>
      actor <- lift (deserialize_Actor actor_data_item) ;;
      collect_actors rest (actors ++ [actor])
  end.

(** [TVDBClient.actors_from_show_id] *)
Definition actors_from_show_id (show_identifier : Z) (timeout : Q) : M (list Actor) :=
  Log INFO ("Fetching actors for show id: " ++ str_of_int show_identifier) ;;
  actor_data <- get transport
                    (Some ("series/" ++ str_of_int show_identifier ++ "/actors")) timeout ;;
  items <- lift (py_iter actor_data) ;;
  collect_actors items [].

(** [TVDBClient.actors_from_show] *)
Definition actors_from_show (show : Show) (timeout : Q) : M (list Actor) :=
  actors_from_show_id (identifier show) timeout.

End Lookups.

(** [headers.get(name)] on the headers of a request. *)
Fixpoint header_lookup (h : Headers) (name : string) : option HeaderValue :=
  match h with
  | [] => None
  | (k, v) :: rest => if String.eqb k name then Some v else header_lookup rest name
  end.

(** The headers every request starts from: [Accept], and [Authorization]
    once a token is held. *)
Definition default_headers (token : json) : Headers :=
  if is_None token then [("Accept", Lit "application/json")]
  else [("Accept", Lit "application/json"); ("Authorization", Bearer token)].

(** The characters of a string, as a list. *)
Fixpoint bytes (s : string) : list ascii :=
  match s with
  | EmptyString => []
  | String a rest => a :: bytes rest
  end.

(** The paths [show_info] and [actors_from_show_id] ask for. *)
Definition show_path (show_identifier : Z) : string :=
  "series/" ++ str_of_int show_identifier.

Definition actors_path (show_identifier : Z) : string :=
  "series/" ++ str_of_int show_identifier ++ "/actors".

(** ** Requests the client builds, for the statements below *)

(** [login_body] of [authenticate]. *)
Definition login_body (c : TVDBClient) : json :=
  JDict [("apikey", JStr (api_key c));
         ("userkey", JStr (user_key c));
         ("username", JStr (user_name c))].

(** The login POST with body [body], as a client without a token sends it. *)
Definition login_post (body : json) : Request :=
  mkRequest POST (_expand_url "login") (Some body)
            [("Accept", Lit "application/json")] Constants.AUTH_TIMEOUT.

Definition login_request (c : TVDBClient) : Request := login_post (login_body c).

(** The GET of [path], as a client holding [token] sends it. *)
Definition get_request (token : json) (path : string) (t : Q) : Request :=
  mkRequest GET (_expand_url path) None
            [("Accept", Lit "application/json"); ("Authorization", Bearer token)] t.

(** State changes: a request sent, a message logged, a token stored. *)
Definition sending (req : Request) (s : Sys) : Sys :=
  mkSys (self s) (sent s ++ [req]) (logged s).

Definition logging (l : Level) (msg : string) (s : Sys) : Sys :=
  mkSys (self s) (sent s) (logged s ++ [(l, msg)]).

Definition storing (token : json) (s : Sys) : Sys :=
  mkSys (mkClient (api_key (self s)) (user_key (self s)) (user_name (self s)) token)
        (sent s) (logged s).

(** [status_code < 200 or status_code >= 300] *)
Definition failed_status (r : Response) : bool :=
  (status_code r <? 200) || (status_code r >=? 300).

(** The transport answers [req], sent after the requests [h], by raising a
    [Timeout]. *)
Definition timed_out (transport : list Request -> Request -> Outcome)
           (h : list Request) (req : Request) : Prop :=
  exists e, transport h req = Raised e /\ isinstance_Timeout e = true.

(** The state after [k] attempts of [req] that timed out and are retried. *)
Fixpoint retried (k : nat) (req : Request) (s : Sys) : Sys :=
  match k with
  | O => s
  | S k' =>
      retried k' req
        (logging WARNING "Authentication timed out, but will retry." (sending req s))
  end.

(** What [authenticate] does with the outcome of its retry loop. *)
Definition after_loop (res : Exc + option Response) (s1 : Sys) : (Exc + unit) * Sys :=
  match res with
  | inl e => (inl e, s1)
  | inr None =>
      (inl (UnboundLocalError "local variable 'response' referenced before assignment"), s1)
  | inr (Some r) =>
      if failed_status r then
        (inl (TVDBAuthenticationException
                ("Authentication failed with status code: " ++ str_of_int (status_code r))),
         logging ERROR ("Authentication failed withs status code: "
                          ++ str_of_int (status_code r)) s1)
      else
        match response_json r with
        | inl e => (inl e, s1)
        | inr content =>
            match py_get content "token" with
            | inl e => (inl e, s1)
            | inr token =>
                if is_None token then
                  (inl (TVDBAuthenticationException "Failed to get token from login request"),
                   logging ERROR "Failed to get token from login request" s1)
                else
                  (inr tt, logging INFO "Authenticated successfully" (storing token s1))
            end
        end
  end.

(** ** Concrete surroundings, for the examples *)

(** A transport that answers the [n]-th request (counting from 0) with the
    [n]-th outcome of [script], and with [default] once the script is over. *)
Definition scripted (script : list Outcome) (default : Outcome)
  : list Request -> Request -> Outcome :=
  fun h _ => nth (length h) script default.

Definition example_client : TVDBClient := mkClient "api-key" "user-key" "user" JNull.

(** A session that has sent and logged nothing yet. *)
Definition fresh (c : TVDBClient) : Sys := mkSys c [] [].

(** The double quote character. *)
Definition dq : string := String (ascii_of_nat 34) EmptyString.

(** HTTP 200 with body [{"token": "abc123"}]. *)
Definition token_response : Response :=
  mkResponse 200 ("{" ++ dq ++ "token" ++ dq ++ ": " ++ dq ++ "abc123" ++ dq ++ "}")
             (Some (JDict [("token", JStr "abc123")])).

(** A transport whose first answer is the token, and the session it leaves
    after [authenticate]. *)
Definition login_ok (then_ : Outcome) : list Request -> Request -> Outcome :=
  scripted [Responded token_response] then_.

Definition logged_in (then_ : Outcome) : Sys :=
  snd (authenticate (login_ok then_) (fresh example_client)).

(** What an argument of the constructor resolves to: itself, or the
    keychain's entry when it is [None]. *)
Definition resolve (get_password : string -> option string)
           (arg : option string) (label : string) : option string :=
  match arg with
  | Some v => Some v
  | None => get_password label
  end.

(** What [get] makes of the response to its GET. *)
Definition classify (path : string) (r : Response) : Exc + json :=
  if failed_status r then
    match resp_json r with
    | None => inl (TVDBException ("Could not decode error response: " ++ text r))
    | Some data =>
        match py_get data "Error" with
        | inl e => inl e
        | inr error =>
            if is_None error then
              inl (TVDBException ("Could not get error information: " ++ text r))
            else if eq_str error "Resource not found" then
              inl (NotFoundException ("Could not find resource for path: " ++ path))
            else
              inl (TVDBException ("Unknown error: " ++ text r))
        end
    end
  else
    match response_json r with
    | inl e => inl e
    | inr content =>
        match py_get content "data" with
        | inl e => inl e
        | inr data =>
            if is_None data then
              inl (NotFoundException ("Could not get data for path: " ++ path))
            else inr data
        end
    end.

(** The session after the GET of [path] went out from session [s1]. *)
Definition got (path : string) (t : Q) (s1 : Sys) : Sys :=
  sending (get_request (auth_token (self s1)) path t)
          (logging INFO ("GET: " ++ path) s1).

(** HTTP 404 with body [{"Error": "Resource not found"}]. *)
Definition not_found_response : Response :=
  mkResponse 404
             ("{" ++ dq ++ "Error" ++ dq ++ ": " ++ dq ++ "Resource not found" ++ dq ++ "}")
             (Some (JDict [("Error", JStr "Resource not found")])).

(** A response whose body is the JSON array [[]]. *)
Definition array_response (status : Z) : Response :=
  mkResponse status "[]" (Some (JList [])).

(** HTTP 200 with body [{"data": {"id": 42}}]. *)
Definition data_response : Response :=
  mkResponse 200 ("{" ++ dq ++ "data" ++ dq ++ ": {" ++ dq ++ "id" ++ dq ++ ": 42}}")
             (Some (JDict [("data", JDict [("id", JInt 42)])])).

(** The path [search_show] asks for. *)
Definition search_path (name : string) : string := "search/series?name=" ++ quote name.

(** HTTP 200 with body [{"data": [{"id": 1}, {"id": 2}]}]. *)
Definition shows_response : Response :=
  mkResponse 200
    ("{" ++ dq ++ "data" ++ dq ++ ": [{" ++ dq ++ "id" ++ dq ++ ": 1}, {"
         ++ dq ++ "id" ++ dq ++ ": 2}]}")
    (Some (JDict [("data", JList [JDict [("id", JInt 1)]; JDict [("id", JInt 2)]])])).

(** A keychain without entries. *)
Definition empty_keychain : string -> option string := fun _ => None.



(** * Properties *)

Ltac run :=
  unfold bind, ret, raise, lift, Log, read_auth_token, read_self, set_auth_token,
    try_except, _construct_headers, requests_post, requests_get, send; simpl.

(** ** Helpers on concrete values *)

Example quote_example : quote "Mr. Robot/x~&é" = "Mr.%20Robot/x~%26%C3%A9".
Proof. reflexivity. Qed.

Example chars_example : chars "aéb" = ["a"; "é"; "b"].
Proof. reflexivity. Qed.

Example str_of_int_example : str_of_int 404 = "404".
Proof. reflexivity. Qed.

Example py_get_missing : py_get (JDict [("a", JInt 1)]) "b" = inr JNull.
Proof. reflexivity. Qed.

Example construct_headers_example :
  fst (_construct_headers (Some [("Accept", Lit "text/plain"); ("X-Trace", Lit "1")])
                          (mkSys (mkClient "k" "u" "n" (JStr "abc123")) [] []))
    = inr [("Accept", Lit "text/plain"); ("Authorization", Bearer (JStr "abc123"));
           ("X-Trace", Lit "1")].
Proof. reflexivity. Qed.

Section LoginLoop.

Variable transport : list Request -> Request -> Outcome.

Lemma login_loop_responded i rest body s r :
  auth_token (self s) = JNull ->
  transport (sent s) (login_post body) = Responded r ->
  login_loop transport (i :: rest) body s = (inr (Some r), sending (login_post body) s).
Proof.
  intros Htok Hr. simpl. run. rewrite Htok. simpl.
  fold (login_post body). rewrite Hr. reflexivity.
Qed.

Lemma login_loop_timeout i rest body s e :
  auth_token (self s) = JNull ->
  transport (sent s) (login_post body) = Raised e ->
  isinstance_Timeout e = true ->
  login_loop transport (i :: rest) body s =
    if i <? Constants.MAX_AUTH_RETRY_COUNT - 1 then
      login_loop transport rest body
        (logging WARNING "Authentication timed out, but will retry."
                 (sending (login_post body) s))
    else
      (inl (Exception_ "Authentication timed out maximum number of times."),
       logging ERROR "Authentication timed out maximum number of times."
               (sending (login_post body) s)).
Proof.
  intros Htok Hr He. simpl. run. rewrite Htok. simpl.
  fold (login_post body). rewrite Hr. simpl. rewrite He.
  destruct (i <? 2); reflexivity.
Qed.

Lemma login_loop_other i rest body s e :
  auth_token (self s) = JNull ->
  transport (sent s) (login_post body) = Raised e ->
  isinstance_Timeout e = false ->
  login_loop transport (i :: rest) body s =
    (inl (Requests e), sending (login_post body) s).
Proof.
  intros Htok Hr He. simpl. run. rewrite Htok. simpl.
  fold (login_post body). rewrite Hr. simpl. rewrite He. reflexivity.
Qed.

End LoginLoop.

Section Authenticate.

Variable transport : list Request -> Request -> Outcome.

Lemma retried_self k req s : self (retried k req s) = self s.
Proof. revert s. induction k as [|k IH]; intros s; simpl; [reflexivity|]. now rewrite IH. Qed.

Lemma retried_sent k req s : sent (retried k req s) = (sent s ++ repeat req k)%list.
Proof.
  revert s. induction k as [|k IH]; intros s; simpl.
  - now rewrite app_nil_r.
  - rewrite IH. simpl. now rewrite <- app_assoc.
Qed.

Lemma range_0_3 : range 0 Constants.MAX_AUTH_RETRY_COUNT = [0; 1; 2].
Proof. reflexivity. Qed.

(** Attempts that time out before the last index are skipped over. *)
Lemma login_loop_retried k : forall indices body s,
  auth_token (self s) = JNull ->
  (k <= length indices)%nat ->
  (forall j, (j < k)%nat -> nth j indices 0 < Constants.MAX_AUTH_RETRY_COUNT - 1) ->
  (forall j, (j < k)%nat ->
     timed_out transport (sent s ++ repeat (login_post body) j)%list (login_post body)) ->
  login_loop transport indices body s =
    login_loop transport (skipn k indices) body (retried k (login_post body) s).
Proof.
  induction k as [|k IH]; intros indices body s Htok Hlen Hidx Hto; [reflexivity|].
  destruct indices as [|i rest]; [simpl in Hlen; lia|].
  destruct (Hto O ltac:(lia)) as (e & He & Ht). simpl in He. rewrite app_nil_r in He.
  rewrite (login_loop_timeout transport i rest body s e Htok He Ht).
  specialize (Hidx O ltac:(lia)) as Hi. change (nth 0 (i :: rest) 0) with i in Hi.
  apply Z.ltb_lt in Hi. rewrite Hi. simpl skipn. simpl retried.
  apply IH.
  - exact Htok.
  - simpl in Hlen. lia.
  - intros j Hj. apply (Hidx (S j)). lia.
  - intros j Hj. specialize (Hto (S j) ltac:(lia)). simpl in *.
    rewrite <- app_assoc. exact Hto.
Qed.

Lemma authenticate_held s :
  auth_token (self s) <> JNull ->
  authenticate transport s = (inr tt, logging DEBUG "Already authenticated, skipping" s).
Proof.
  intros H. unfold authenticate. run.
  destruct (auth_token (self s)); try reflexivity. congruence.
Qed.

Lemma authenticate_unheld s :
  auth_token (self s) = JNull ->
  authenticate transport s =
    let (res, s1) :=
      login_loop transport (range 0 Constants.MAX_AUTH_RETRY_COUNT) (login_body (self s))
                 (logging INFO "Authenticating..." s) in
    after_loop res s1.
Proof.
  intros H. unfold authenticate, login_body, logging, bind, read_auth_token, read_self, Log.
  rewrite H. cbn [negb is_None self].
  destruct (login_loop transport _ _ _) as [[e|[r|]] s1]; try reflexivity.
  unfold after_loop, failed_status.
  destruct ((status_code r <? 200) || (status_code r >=? 300)); [reflexivity|].
  unfold lift, set_auth_token, raise, ret.
  destruct (response_json r) as [e|content]; [reflexivity|].
  destruct (py_get content "token") as [e|token]; [reflexivity|].
  destruct (is_None token); reflexivity.
Qed.

(** The retry loop of [authenticate] after [k < 3] timeouts: a response
    ends it. *)
Lemma login_run_responded k body s r :
  auth_token (self s) = JNull ->
  (k < 3)%nat ->
  (forall j, (j < k)%nat ->
     timed_out transport (sent s ++ repeat (login_post body) j)%list (login_post body)) ->
  transport (sent s ++ repeat (login_post body) k)%list (login_post body) = Responded r ->
  login_loop transport (range 0 Constants.MAX_AUTH_RETRY_COUNT) body s =
    (inr (Some r), sending (login_post body) (retried k (login_post body) s)).
Proof.
  intros Htok Hk Hto Hr. rewrite range_0_3.
  rewrite (login_loop_retried k [0; 1; 2] body s Htok); [| simpl; lia | | exact Hto].
  - rewrite <- retried_sent in Hr.
    destruct k as [|[|[|k]]]; try lia; simpl skipn;
      apply login_loop_responded; try exact Hr; now rewrite retried_self.
  - intros j Hj. destruct j as [|[|j]]; simpl; unfold Constants.MAX_AUTH_RETRY_COUNT; lia.
Qed.

(** ... and so does an exception that is not a timeout. *)
Lemma login_run_other k body s e :
  auth_token (self s) = JNull ->
  (k < 3)%nat ->
  (forall j, (j < k)%nat ->
     timed_out transport (sent s ++ repeat (login_post body) j)%list (login_post body)) ->
  transport (sent s ++ repeat (login_post body) k)%list (login_post body) = Raised e ->
  isinstance_Timeout e = false ->
  login_loop transport (range 0 Constants.MAX_AUTH_RETRY_COUNT) body s =
    (inl (Requests e), sending (login_post body) (retried k (login_post body) s)).
Proof.
  intros Htok Hk Hto Hr He. rewrite range_0_3.
  rewrite (login_loop_retried k [0; 1; 2] body s Htok); [| simpl; lia | | exact Hto].
  - rewrite <- retried_sent in Hr.
    destruct k as [|[|[|k]]]; try lia; simpl skipn;
      apply login_loop_other; try exact Hr; try exact He; now rewrite retried_self.
  - intros j Hj. destruct j as [|[|j]]; simpl; unfold Constants.MAX_AUTH_RETRY_COUNT; lia.
Qed.

(** The third timeout in a row ends the loop with a plain [Exception]. *)
Lemma login_run_exhausted body s :
  auth_token (self s) = JNull ->
  (forall j, (j < 3)%nat ->
     timed_out transport (sent s ++ repeat (login_post body) j)%list (login_post body)) ->
  login_loop transport (range 0 Constants.MAX_AUTH_RETRY_COUNT) body s =
    (inl (Exception_ "Authentication timed out maximum number of times."),
     logging ERROR "Authentication timed out maximum number of times."
             (sending (login_post body) (retried 2 (login_post body) s))).
Proof.
  intros Htok Hto. rewrite range_0_3.
  rewrite (login_loop_retried 2 [0; 1; 2] body s Htok); [| simpl; lia | | ].
  - destruct (Hto 2%nat ltac:(lia)) as (e & He & Ht).
    rewrite <- retried_sent in He. simpl skipn.
    rewrite (login_loop_timeout transport 2 [] body _ e); try assumption.
    reflexivity.
  - intros j Hj. destruct j as [|[|j]]; simpl; unfold Constants.MAX_AUTH_RETRY_COUNT; lia.
  - intros j Hj. apply Hto. lia.
Qed.

End Authenticate.

Section AuthenticateEffects.

Variable transport : list Request -> Request -> Outcome.

(** The retry loop sends the login POST, at least once and at most once per
    index, and nothing else; it never touches the client. *)
Lemma login_loop_sent indices : forall body s,
  auth_token (self s) = JNull ->
  exists n,
    (n <= length indices)%nat /\ (indices <> [] -> (1 <= n)%nat) /\
    sent (snd (login_loop transport indices body s))
      = (sent s ++ repeat (login_post body) n)%list /\
    self (snd (login_loop transport indices body s)) = self s.
Proof.
  induction indices as [|i rest IH]; intros body s Htok.
  - exists O. simpl. rewrite app_nil_r. repeat split; try lia. congruence.
  - destruct (transport (sent s) (login_post body)) as [r|e] eqn:Hout.
    + exists 1%nat. rewrite (login_loop_responded transport i rest body s r Htok Hout).
      simpl. repeat split; lia.
    + destruct (isinstance_Timeout e) eqn:He.
      * rewrite (login_loop_timeout transport i rest body s e Htok Hout He).
        destruct (i <? Constants.MAX_AUTH_RETRY_COUNT - 1).
        -- destruct (IH body
                       (logging WARNING "Authentication timed out, but will retry."
                                (sending (login_post body) s)) Htok)
             as (n & Hn & _ & Hs & Hc).
           exists (S n). rewrite Hs, Hc. simpl. rewrite <- app_assoc.
           repeat split; lia.
        -- exists 1%nat. simpl. repeat split; lia.
      * exists 1%nat. rewrite (login_loop_other transport i rest body s e Htok Hout He).
        simpl. repeat split; lia.
Qed.

Lemma after_loop_sent res s1 : sent (snd (after_loop res s1)) = sent s1.
Proof.
  destruct res as [e|[r|]]; try reflexivity. simpl.
  destruct (failed_status r); [reflexivity|].
  destruct (response_json r) as [e|content]; [reflexivity|].
  destruct (py_get content "token") as [e|token]; [reflexivity|].
  destruct (is_None token); reflexivity.
Qed.

(** A failed login leaves the client as it was. *)
Lemma after_loop_failed res s1 e :
  fst (after_loop res s1) = inl e -> self (snd (after_loop res s1)) = self s1.
Proof.
  destruct res as [e'|[r|]]; try reflexivity. simpl.
  destruct (failed_status r); [reflexivity|].
  destruct (response_json r) as [e'|content]; [reflexivity|].
  destruct (py_get content "token") as [e'|token]; [reflexivity|].
  destruct (is_None token); [reflexivity|]. simpl. discriminate.
Qed.

(** A successful login stores a token that is not [None]. *)
Lemma after_loop_succeeded res s1 :
  fst (after_loop res s1) = inr tt ->
  auth_token (self (snd (after_loop res s1))) <> JNull.
Proof.
  destruct res as [e'|[r|]]; try discriminate. simpl.
  destruct (failed_status r); [discriminate|].
  destruct (response_json r) as [e'|content]; [discriminate|].
  destruct (py_get content "token") as [e'|token]; [discriminate|].
  destruct token; simpl; try discriminate.
Qed.

(** [authenticate] sends login POSTs only: none when a token is held, one to
    three otherwise. *)
Lemma authenticate_sent s :
  exists n,
    (n <= 3)%nat /\
    (auth_token (self s) = JNull -> (1 <= n)%nat) /\
    (auth_token (self s) <> JNull -> n = O) /\
    sent (snd (authenticate transport s))
      = (sent s ++ repeat (login_request (self s)) n)%list.
Proof.
  destruct (auth_token (self s)) eqn:Htok;
    try (exists O; rewrite authenticate_held by (rewrite Htok; discriminate);
         simpl; rewrite app_nil_r; repeat split; try lia; congruence).
  rewrite (authenticate_unheld transport s Htok).
  destruct (login_loop_sent (range 0 Constants.MAX_AUTH_RETRY_COUNT) (login_body (self s))
              (logging INFO "Authenticating..." s) Htok) as (n & Hn & Hpos & Hs & _).
  destruct (login_loop transport _ _ _) as [res s1]. rewrite after_loop_sent.
  exists n. simpl in Hs. rewrite Hs. rewrite range_0_3 in Hn, Hpos. simpl in Hn.
  repeat split; try lia; try congruence.
  intros _. apply Hpos. discriminate.
Qed.

(** A failing [authenticate] leaves the client as it was. *)
Lemma authenticate_failed_self s e :
  fst (authenticate transport s) = inl e -> self (snd (authenticate transport s)) = self s.
Proof.
  destruct (auth_token (self s)) eqn:Htok;
    try (rewrite authenticate_held by (rewrite Htok; discriminate); reflexivity).
  rewrite (authenticate_unheld transport s Htok).
  destruct (login_loop_sent (range 0 Constants.MAX_AUTH_RETRY_COUNT) (login_body (self s))
              (logging INFO "Authenticating..." s) Htok) as (n & _ & _ & _ & Hc).
  destruct (login_loop transport _ _ _) as [res s1]. intros H.
  rewrite (after_loop_failed res s1 e H). exact Hc.
Qed.

(** After a successful [authenticate] the client holds a token. *)
Lemma authenticate_succeeded_token s :
  fst (authenticate transport s) = inr tt ->
  auth_token (self (snd (authenticate transport s))) <> JNull.
Proof.
  destruct (auth_token (self s)) eqn:Htok;
    try (rewrite authenticate_held by (rewrite Htok; discriminate);
         simpl; rewrite Htok; discriminate).
  rewrite (authenticate_unheld transport s Htok).
  destruct (login_loop transport _ _ _) as [res s1]. apply after_loop_succeeded.
Qed.

End AuthenticateEffects.

(** ** authenticate *)

(** C1, as the code has it: on a client that holds no token, when the three
    login attempts all time out, [authenticate] sends exactly three login
    POSTs and then raises the plain [Exception] "Authentication timed out
    maximum number of times.", leaving the client without a token. *)
Theorem authenticate_timeouts_exhausted transport s :
  auth_token (self s) = JNull ->
  (forall j, (j < 3)%nat ->
     timed_out transport (sent s ++ repeat (login_request (self s)) j)%list
               (login_request (self s))) ->
  exists s',
    authenticate transport s
      = (inl (Exception_ "Authentication timed out maximum number of times."), s') /\
    sent s' = (sent s ++ repeat (login_request (self s)) 3)%list /\
    is_POST (login_request (self s)) = true /\
    self s' = self s.
Proof.
  intros Htok Hto. rewrite (authenticate_unheld transport s Htok).
  rewrite (login_run_exhausted transport (login_body (self s))
             (logging INFO "Authenticating..." s) Htok Hto).
  eexists. split; [reflexivity|]. simpl. rewrite <- !app_assoc. simpl. auto.
Qed.

Lemma authenticate_timeouts_exhausted_witness :
  auth_token (self (fresh example_client)) = JNull /\
  exists s',
    authenticate (scripted [] (Raised ReadTimeout)) (fresh example_client)
      = (inl (Exception_ "Authentication timed out maximum number of times."), s') /\
    sent s' = repeat (login_request example_client) 3 /\
    is_POST (login_request example_client) = true /\
    self s' = example_client.
Proof.
  split; [reflexivity|].
  apply (authenticate_timeouts_exhausted (scripted [] (Raised ReadTimeout))
           (fresh example_client)).
  - reflexivity.
  - intros j _. exists ReadTimeout. split; [|reflexivity].
    unfold scripted. now destruct (length _) as [|[|[|n]]].
Defined.

(** C1 as stated fails: after three timeouts the error raised is not
    [TVDBAuthenticationException]. *)
Lemma authenticate_timeouts_not_authentication_error :
  auth_token (self (fresh example_client)) = JNull /\
  timed_out (scripted [] (Raised Timeout)) [] (login_request example_client) /\
  timed_out (scripted [] (Raised Timeout)) [login_request example_client]
            (login_request example_client) /\
  timed_out (scripted [] (Raised Timeout))
            [login_request example_client; login_request example_client]
            (login_request example_client) /\
  ~ (exists msg s',
       authenticate (scripted [] (Raised Timeout)) (fresh example_client)
         = (inl (TVDBAuthenticationException msg), s')).
Proof.
  split; [reflexivity|].
  repeat (split; [exists Timeout; split; reflexivity|]).
  intros (msg & s' & H). vm_compute in H. discriminate H.
Qed.

(** C10: on a client that holds no token, an exception of the login POST
    that is not a [Timeout], raised on attempt [k + 1] after [k] attempts
    that timed out, is raised by [authenticate] as it is; that attempt is the
    last request sent, and the client is left as it was. *)
Theorem authenticate_other_exception_propagates transport s k e :
  auth_token (self s) = JNull ->
  (k < 3)%nat ->
  (forall j, (j < k)%nat ->
     timed_out transport (sent s ++ repeat (login_request (self s)) j)%list
               (login_request (self s))) ->
  transport (sent s ++ repeat (login_request (self s)) k)%list (login_request (self s))
    = Raised e ->
  isinstance_Timeout e = false ->
  exists s',
    authenticate transport s = (inl (Requests e), s') /\
    sent s' = (sent s ++ repeat (login_request (self s)) (S k))%list /\
    self s' = self s.
Proof.
  intros Htok Hk Hto Hout He. rewrite (authenticate_unheld transport s Htok).
  rewrite (login_run_other transport k (login_body (self s))
             (logging INFO "Authenticating..." s) e Htok Hk Hto Hout He).
  eexists. split; [reflexivity|]. simpl. rewrite retried_sent, retried_self. simpl.
  rewrite <- app_assoc. split; [|reflexivity].
  f_equal. change (login_post (login_body (self s))) with (login_request (self s)).
  now rewrite <- repeat_cons.
Qed.

Lemma authenticate_other_exception_propagates_witness :
  exists s',
    authenticate (scripted [Raised ConnectTimeout; Raised ConnectionError]
                           (Responded token_response))
                 (fresh example_client)
      = (inl (Requests ConnectionError), s') /\
    sent s' = repeat (login_request example_client) 2 /\
    self s' = example_client.
Proof.
  apply (authenticate_other_exception_propagates
           (scripted [Raised ConnectTimeout; Raised ConnectionError]
                     (Responded token_response))
           (fresh example_client) 1 ConnectionError).
  - reflexivity.
  - lia.
  - intros j Hj. assert (j = O) by lia. subst j.
    exists ConnectTimeout. split; reflexivity.
  - reflexivity.
  - reflexivity.
Defined.

(** C5, as the code has it: on a client that holds no token, when the login
    response has a status code outside 200..299, or a body that is a JSON
    object without a [token] (or with a null one), [authenticate] raises
    [TVDBAuthenticationException], with the status code in its message in
    the first case.  The client is left without a token, so that the next
    [authenticate] sends the login POST again. *)
Theorem authenticate_rejected transport s k r :
  auth_token (self s) = JNull ->
  (k < 3)%nat ->
  (forall j, (j < k)%nat ->
     timed_out transport (sent s ++ repeat (login_request (self s)) j)%list
               (login_request (self s))) ->
  transport (sent s ++ repeat (login_request (self s)) k)%list (login_request (self s))
    = Responded r ->
  (failed_status r = true \/
   exists items, resp_json r = Some (JDict items) /\
                 (lookup items "token" = None \/ lookup items "token" = Some JNull)) ->
  exists s',
    authenticate transport s
      = (inl (TVDBAuthenticationException
                (if failed_status r
                 then "Authentication failed with status code: "
                        ++ str_of_int (status_code r)
                 else "Failed to get token from login request")), s') /\
    sent s' = (sent s ++ repeat (login_request (self s)) (S k))%list /\
    self s' = self s /\
    auth_token (self s') = JNull /\
    exists n, (1 <= n)%nat /\
      sent (snd (authenticate transport s'))
        = (sent s' ++ repeat (login_request (self s')) n)%list.
Proof.
  intros Htok Hk Hto Hout Hbad.
  assert (Hrun : exists s',
    authenticate transport s
      = (inl (TVDBAuthenticationException
                (if failed_status r
                 then "Authentication failed with status code: "
                        ++ str_of_int (status_code r)
                 else "Failed to get token from login request")), s') /\
    sent s' = (sent s ++ repeat (login_request (self s)) (S k))%list /\
    self s' = self s).
  { rewrite (authenticate_unheld transport s Htok).
    rewrite (login_run_responded transport k (login_body (self s))
               (logging INFO "Authenticating..." s) r Htok Hk Hto Hout).
    assert (Hsent : forall l m,
              sent (logging l m (sending (login_post (login_body (self s)))
                      (retried k (login_post (login_body (self s)))
                         (logging INFO "Authenticating..." s))))
              = (sent s ++ repeat (login_request (self s)) (S k))%list).
    { intros l m. simpl. rewrite retried_sent. simpl. rewrite <- app_assoc.
      f_equal. change (login_post (login_body (self s))) with (login_request (self s)).
      now rewrite <- repeat_cons. }
    unfold after_loop. destruct (failed_status r) eqn:Hst.
    - eexists. split; [reflexivity|]. split; [apply Hsent|].
      simpl. now rewrite retried_self.
    - destruct Hbad as [Hbad|(items & Hjson & Hlk)]; [discriminate|].
      unfold response_json. rewrite Hjson. unfold py_get.
      replace (match lookup items "token" with Some x => x | None => JNull end)
        with JNull by (destruct Hlk as [-> | ->]; reflexivity).
      cbn [is_None].
      eexists. split; [reflexivity|]. split; [apply Hsent|].
      simpl. now rewrite retried_self. }
  destruct Hrun as (s' & Hrun & Hsent & Hself).
  exists s'. repeat split; try assumption.
  - now rewrite Hself.
  - destruct (authenticate_sent transport s') as (n & _ & Hpos & _ & Hn).
    exists n. split; [|exact Hn]. apply Hpos. now rewrite Hself.
Qed.

Lemma authenticate_rejected_witness :
  failed_status (mkResponse 401 "Not authorized" None) = true /\
  exists s',
    authenticate (scripted [Responded (mkResponse 401 "Not authorized" None)]
                           (Responded token_response))
                 (fresh example_client)
      = (inl (TVDBAuthenticationException "Authentication failed with status code: 401"),
         s') /\
    sent s' = [login_request example_client] /\
    self s' = example_client /\
    auth_token (self s') = JNull /\
    exists n, (1 <= n)%nat /\
      sent (snd (authenticate
                   (scripted [Responded (mkResponse 401 "Not authorized" None)]
                             (Responded token_response)) s'))
        = (sent s' ++ repeat (login_request (self s')) n)%list.
Proof.
  split; [reflexivity|].
  apply (authenticate_rejected
           (scripted [Responded (mkResponse 401 "Not authorized" None)]
                     (Responded token_response))
           (fresh example_client) 0 (mkResponse 401 "Not authorized" None)).
  - reflexivity.
  - lia.
  - intros j Hj. lia.
  - reflexivity.
  - left. reflexivity.
Defined.

(** C5 as stated fails: a successful login response whose body is the JSON
    array [[]] has no [token] field, and [authenticate] raises
    [AttributeError], not [TVDBAuthenticationException]. *)
Lemma authenticate_token_missing_not_object :
  auth_token (self (fresh example_client)) = JNull /\
  failed_status (mkResponse 200 "[]" (Some (JList []))) = false /\
  fst (authenticate (scripted [] (Responded (mkResponse 200 "[]" (Some (JList [])))))
                    (fresh example_client))
    = inl (AttributeError "'list' object has no attribute 'get'") /\
  ~ (exists msg,
       fst (authenticate (scripted [] (Responded (mkResponse 200 "[]" (Some (JList [])))))
                         (fresh example_client))
         = inl (TVDBAuthenticationException msg)).
Proof.
  repeat split; try reflexivity.
  intros (msg & H). vm_compute in H. discriminate H.
Qed.

(** C6: on a client that holds a token, be it from the start or from an
    earlier successful [authenticate], [authenticate] returns without
    sending a request and leaves the client, and so the token, as it is. *)
Theorem authenticate_idempotent transport s :
  (auth_token (self s) <> JNull \/
   exists s0, authenticate transport s0 = (inr tt, s)) ->
  exists s',
    authenticate transport s = (inr tt, s') /\
    sent s' = sent s /\
    self s' = self s.
Proof.
  intros H.
  assert (Htok : auth_token (self s) <> JNull).
  { destruct H as [H|(s0 & H)]; [exact H|].
    pose proof (authenticate_succeeded_token transport s0) as Hs.
    rewrite H in Hs. apply Hs. reflexivity. }
  rewrite (authenticate_held transport s Htok).
  eexists. split; [reflexivity|]. split; reflexivity.
Qed.

Lemma authenticate_idempotent_witness :
  authenticate (login_ok (Raised ConnectionError)) (fresh example_client)
    = (inr tt, logged_in (Raised ConnectionError)) /\
  auth_token (self (logged_in (Raised ConnectionError))) = JStr "abc123" /\
  sent (logged_in (Raised ConnectionError)) = [login_request example_client] /\
  exists s',
    authenticate (login_ok (Raised ConnectionError)) (logged_in (Raised ConnectionError))
      = (inr tt, s') /\
    sent s' = sent (logged_in (Raised ConnectionError)) /\
    self s' = self (logged_in (Raised ConnectionError)).
Proof.
  split; [reflexivity|]. split; [reflexivity|]. split; [reflexivity|].
  apply (authenticate_idempotent (login_ok (Raised ConnectionError))
           (logged_in (Raised ConnectionError))).
  right. exists (fresh example_client). reflexivity.
Defined.

(** ** get *)

Section Get.

Variable transport : list Request -> Request -> Outcome.

(** [get] on a path that is not empty: [authenticate], then one GET, then
    the classification of its response. *)
Lemma get_unfold path t s :
  path <> EmptyString ->
  get transport (Some path) t s =
    match authenticate transport s with
    | (inl e, s1) => (inl e, s1)
    | (inr _, s1) =>
        match transport (sent s1) (get_request (auth_token (self s1)) path t) with
        | Raised e => (inl (Requests e), got path t s1)
        | Responded r => (classify path r, got path t s1)
        end
    end.
Proof.
  intros Hpath. destruct path as [|a p]; [congruence|].
  pose proof (authenticate_succeeded_token transport s) as Htok.
  unfold get. unfold bind at 1.
  destruct (authenticate transport s) as [[e|[]] s1]; [reflexivity|].
  specialize (Htok eq_refl). simpl in Htok.
  unfold got, get_request, sending, logging, classify, failed_status.
  unfold _construct_headers, bind, Log, read_auth_token, requests_get, send,
    try_except, lift, raise, ret, response_json.
  cbn [self sent logged].
  destruct (auth_token (self s1)) eqn:Ht; try congruence; cbn [negb is_None];
    (destruct (transport (sent s1) _) as [r|e]; [|reflexivity];
     destruct ((status_code r <? 200) || (status_code r >=? 300));
     [ destruct (resp_json r) as [data|]; [|reflexivity];
       destruct (py_get data "Error") as [e|error]; [reflexivity|];
       destruct (is_None error); [reflexivity|];
       destruct (eq_str error "Resource not found"); reflexivity
     | destruct (resp_json r) as [content|]; [|reflexivity];
       destruct (py_get content "data") as [e|data]; [reflexivity|];
       destruct (is_None data); reflexivity ]).
Qed.

End Get.

(** C7: [get] on a path that is [None] or empty raises [AttributeError] at
    once: no request is sent, nothing is logged and the client is not
    touched, so no authentication is attempted. *)
Theorem get_invalid_path transport t s :
  get transport None t s
    = (inl (AttributeError "An invalid URL path was supplied"), s) /\
  get transport (Some EmptyString) t s
    = (inl (AttributeError "An invalid URL path was supplied"), s).
Proof. split; reflexivity. Qed.

Lemma eq_str_other err lit : err <> JStr lit -> eq_str err lit = false.
Proof.
  destruct err; try reflexivity. intros H. simpl.
  apply String.eqb_neq. congruence.
Qed.

(** Error responses whose body is not JSON or is a JSON object: when [get]
    has authenticated and the response
    to its GET has a status code outside 200..299, then a body that is not
    JSON gives [TVDBException] with the response text; a body that is a
    JSON object without an [Error] (or with a null one) gives [TVDBException]
    with the response text; an [Error] equal to "Resource not found" gives
    [NotFoundException]; any other [Error] gives [TVDBException] with the
    response text.  That GET is the only request [get] sends after
    authenticating. *)
Theorem get_error_response transport path t s s1 r :
  path <> EmptyString ->
  authenticate transport s = (inr tt, s1) ->
  transport (sent s1) (get_request (auth_token (self s1)) path t) = Responded r ->
  failed_status r = true ->
  sent (snd (get transport (Some path) t s))
    = (sent s1 ++ [get_request (auth_token (self s1)) path t])%list /\
  (resp_json r = None ->
   fst (get transport (Some path) t s)
     = inl (TVDBException ("Could not decode error response: " ++ text r))) /\
  (forall items, resp_json r = Some (JDict items) ->
     (lookup items "Error" = None \/ lookup items "Error" = Some JNull ->
      fst (get transport (Some path) t s)
        = inl (TVDBException ("Could not get error information: " ++ text r))) /\
     (lookup items "Error" = Some (JStr "Resource not found") ->
      fst (get transport (Some path) t s)
        = inl (NotFoundException ("Could not find resource for path: " ++ path))) /\
     (forall error, lookup items "Error" = Some error ->
        error <> JNull -> error <> JStr "Resource not found" ->
        fst (get transport (Some path) t s)
          = inl (TVDBException ("Unknown error: " ++ text r)))).
Proof.
  intros Hpath Hauth Hout Hst.
  rewrite (get_unfold transport path t s Hpath), Hauth, Hout.
  unfold classify. rewrite Hst. cbn [fst snd].
  split; [reflexivity|]. split.
  - intros ->. reflexivity.
  - intros items ->. unfold py_get. repeat split.
    + intros [-> | ->]; reflexivity.
    + intros ->. reflexivity.
    + intros error -> Hnull Hother.
      rewrite (eq_str_other error "Resource not found" Hother).
      destruct error; try reflexivity. congruence.
Qed.

Lemma get_error_response_witness :
  fst (get (login_ok (Responded not_found_response)) (Some "series/1") 10%Q
           (fresh example_client))
    = inl (NotFoundException "Could not find resource for path: series/1").
Proof.
  destruct (get_error_response (login_ok (Responded not_found_response)) "series/1" 10%Q
              (fresh example_client) (logged_in (Responded not_found_response))
              not_found_response) as (_ & _ & H).
  - discriminate.
  - reflexivity.
  - reflexivity.
  - reflexivity.
  - destruct (H [("Error", JStr "Resource not found")] eq_refl) as (_ & Hnf & _).
    apply Hnf. reflexivity.
Defined.

(** C3, at the input where the code departs from it: an error response
    (status 500) whose body is the JSON array [[]] parses and has no [Error]
    field, so that the generic [TVDBException] with the response text is due,
    as the comments of [get] say it too; [data.get] raises [AttributeError]
    instead. *)
Lemma get_error_response_not_object :
  failed_status (array_response 500) = true /\
  resp_json (array_response 500) = Some (JList []) /\
  fst (get (login_ok (Responded (array_response 500))) (Some "series/1") 10%Q
           (fresh example_client))
    = inl (AttributeError "'list' object has no attribute 'get'") /\
  ~ (exists msg,
       fst (get (login_ok (Responded (array_response 500))) (Some "series/1") 10%Q
                (fresh example_client))
         = inl (TVDBException msg)).
Proof.
  repeat split; try reflexivity.
  intros (msg & H). vm_compute in H. discriminate H.
Qed.

(** C4, as the code has it: when [get] has authenticated and the response
    to its GET has a status code in 200..299 and a body that is a JSON
    object, then a missing or null [data] gives [NotFoundException], and any
    other [data] is what [get] returns. *)
Theorem get_success_response transport path t s s1 r items :
  path <> EmptyString ->
  authenticate transport s = (inr tt, s1) ->
  transport (sent s1) (get_request (auth_token (self s1)) path t) = Responded r ->
  failed_status r = false ->
  resp_json r = Some (JDict items) ->
  (lookup items "data" = None \/ lookup items "data" = Some JNull ->
   fst (get transport (Some path) t s)
     = inl (NotFoundException ("Could not get data for path: " ++ path))) /\
  (forall data, lookup items "data" = Some data -> data <> JNull ->
     fst (get transport (Some path) t s) = inr data).
Proof.
  intros Hpath Hauth Hout Hst Hjson.
  rewrite (get_unfold transport path t s Hpath), Hauth, Hout.
  unfold classify, response_json, py_get. rewrite Hst, Hjson. cbn [fst].
  split.
  - intros [-> | ->]; reflexivity.
  - intros data -> Hnull. destruct data; try reflexivity. congruence.
Qed.

Lemma get_success_response_witness :
  fst (get (login_ok (Responded data_response)) (Some "series/42") 10%Q
           (fresh example_client))
    = inr (JDict [("id", JInt 42)]).
Proof.
  destruct (get_success_response (login_ok (Responded data_response)) "series/42" 10%Q
              (fresh example_client) (logged_in (Responded data_response))
              data_response [("data", JDict [("id", JInt 42)])]) as (_ & H).
  - discriminate.
  - reflexivity.
  - reflexivity.
  - reflexivity.
  - reflexivity.
  - apply H; [reflexivity | discriminate].
Defined.

(** C4 as stated fails: a successful response whose body is the JSON array
    [[]] has no [data] key, and [get] raises [AttributeError], not
    [NotFoundException]. *)
Lemma get_success_response_not_object :
  failed_status (array_response 200) = false /\
  resp_json (array_response 200) = Some (JList []) /\
  fst (get (login_ok (Responded (array_response 200))) (Some "series/1") 10%Q
           (fresh example_client))
    = inl (AttributeError "'list' object has no attribute 'get'") /\
  ~ (exists msg,
       fst (get (login_ok (Responded (array_response 200))) (Some "series/1") 10%Q
                (fresh example_client))
         = inl (NotFoundException msg)).
Proof.
  repeat split; try reflexivity.
  intros (msg & H). vm_compute in H. discriminate H.
Qed.

(** ** search_show *)

Section SearchShow.

Variable transport : list Request -> Request -> Outcome.
Variable Show : Type.
Variable from_json : json -> Exc + Show.

Lemma collect_shows_state shows_data : forall shows s,
  snd (collect_shows Show from_json shows_data shows s) = s.
Proof.
  induction shows_data as [|x rest IH]; intros shows s; [reflexivity|].
  simpl. unfold bind, lift. destruct (from_json x) as [e|show]; [reflexivity|].
  apply IH.
Qed.


Lemma search_show_unfold name t s :
  name <> EmptyString ->
  search_show transport Show from_json (Some name) t s =
    match get transport (Some (search_path name)) t
              (logging INFO ("Searching for show: " ++ name) s) with
    | (inl e, s') => (inl e, s')
    | (inr shows_data, s') =>
        match py_iter shows_data with
        | inl e => (inl e, s')
        | inr items => collect_shows Show from_json items [] s'
        end
    end.
Proof.
  intros Hname. destruct name as [|a name]; [congruence|].
  unfold search_show, search_path. unfold bind at 1. unfold Log at 1.
  cbv beta iota. unfold bind at 1. fold (logging INFO ("Searching for show: " ++ String a name) s).
  destruct (get transport _ t _) as [[e|shows_data] s']; [reflexivity|].
  unfold bind, lift. destruct (py_iter shows_data) as [e|items]; reflexivity.
Qed.

Lemma search_path_not_empty name : search_path name <> EmptyString.
Proof. discriminate. Qed.

End SearchShow.

(** C8: [search_show] on a name that is [None] or empty returns the empty
    list at once: no request is sent, nothing is logged and the client is not
    touched. *)
Theorem search_show_blank transport Show from_json t s :
  search_show transport Show from_json None t s = (inr [], s) /\
  search_show transport Show from_json (Some EmptyString) t s = (inr [], s).
Proof. split; reflexivity. Qed.

(** ** Construction *)

(** C2, as the code has it: the constructor succeeds exactly when each of
    the three secrets resolves, from its argument or else from the keychain,
    to a string, which may be empty; the client then holds the resolved
    secrets and no token.  Otherwise it raises a plain [Exception] and there
    is no client. *)
Theorem init_resolves_secrets get_password a_key u_key u_name :
  match __init__ get_password a_key u_key u_name with
  | inr c =>
      resolve get_password a_key "libtvdb_api_key" = Some (api_key c) /\
      resolve get_password u_key "libtvdb_user_key" = Some (user_key c) /\
      resolve get_password u_name "libtvdb_user_name" = Some (user_name c) /\
      auth_token c = JNull
  | inl e =>
      (exists msg, e = Exception_ msg) /\
      (resolve get_password a_key "libtvdb_api_key" = None \/
       resolve get_password u_key "libtvdb_user_key" = None \/
       resolve get_password u_name "libtvdb_user_name" = None)
  end.
Proof.
  unfold __init__, resolve.
  destruct a_key as [k|]; [|destruct (get_password "libtvdb_api_key") as [k|]];
    (destruct u_key as [u|]; [|destruct (get_password "libtvdb_user_key") as [u|]]);
    (destruct u_name as [n|]; [|destruct (get_password "libtvdb_user_name") as [n|]]);
    cbn; eauto 6.
Qed.

(** C2 as stated fails: an empty API key is accepted, from the argument as
    from the keychain. *)
Lemma init_accepts_empty_secret :
  __init__ empty_keychain (Some EmptyString) (Some "user-key") (Some "user")
    = inr (mkClient EmptyString "user-key" "user" JNull) /\
  __init__ (fun _ => Some EmptyString) None None None
    = inr (mkClient EmptyString EmptyString EmptyString JNull).
Proof. split; reflexivity. Qed.

(** ** Whole runs *)

(** A search on a fresh client: one login POST, then the one GET. *)
Example search_show_run :
  sent (snd (search_show (login_ok (Responded shows_response)) json (fun j => inr j)
                         (Some "Mr. Robot") 10%Q (fresh example_client)))
    = [login_request example_client;
       get_request (JStr "abc123") "search/series?name=Mr.%20Robot" 10%Q].
Proof. reflexivity. Qed.

(** Two timeouts, each logged as a warning and retried, then the token. *)
Example authenticate_retry_run :
  authenticate (scripted [Raised Timeout; Raised ReadTimeout] (Responded token_response))
               (fresh example_client)
    = (inr tt,
       mkSys (mkClient "api-key" "user-key" "user" (JStr "abc123"))
             (repeat (login_request example_client) 3)
             [(INFO, "Authenticating...");
              (WARNING, "Authentication timed out, but will retry.");
              (WARNING, "Authentication timed out, but will retry.");
              (INFO, "Authenticated successfully")]).
Proof. reflexivity. Qed.

(** A data payload that is not iterable makes [search_show] raise. *)
Example search_show_data_not_iterable :
  fst (search_show
         (login_ok (Responded (mkResponse 200 "{}" (Some (JDict [("data", JInt 7)])))))
         json (fun j => inr j) (Some "x") 10%Q (fresh example_client))
    = inl (TypeError "'int' object is not iterable").
Proof. reflexivity. Qed.

(** * Further properties *)

(** ** authenticate, beyond the failures *)

Lemma retried_logged k req s :
  logged (retried k req s)
    = (logged s ++ repeat (WARNING, "Authentication timed out, but will retry.") k)%list.
Proof.
  revert s. induction k as [|k IH]; intros s; simpl.
  - now rewrite app_nil_r.
  - rewrite IH. simpl. now rewrite <- app_assoc.
Qed.

Lemma repeat_snoc {A} (x : A) n : (repeat x n ++ [x])%list = repeat x (S n).
Proof. induction n as [|n IH]; simpl; [reflexivity|]. now rewrite IH. Qed.

(** A login that is answered, after [k < 3] timeouts, with a status in
    200..299 and a JSON object holding a [token] that is not null, succeeds:
    the token is stored beside the unchanged secrets, [k + 1] login POSTs
    have been sent, and the log holds one warning per timeout between the two
    informational messages. *)
Theorem authenticate_stores_token transport s k r items token :
  auth_token (self s) = JNull ->
  (k < 3)%nat ->
  (forall j, (j < k)%nat ->
     timed_out transport (sent s ++ repeat (login_request (self s)) j)%list
               (login_request (self s))) ->
  transport (sent s ++ repeat (login_request (self s)) k)%list (login_request (self s))
    = Responded r ->
  failed_status r = false ->
  resp_json r = Some (JDict items) ->
  lookup items "token" = Some token ->
  token <> JNull ->
  authenticate transport s
    = (inr tt,
       mkSys (mkClient (api_key (self s)) (user_key (self s)) (user_name (self s)) token)
             (sent s ++ repeat (login_request (self s)) (S k))
             (logged s ++ [(INFO, "Authenticating...")]
                ++ repeat (WARNING, "Authentication timed out, but will retry.") k
                ++ [(INFO, "Authenticated successfully")])).
Proof.
  intros Htok Hk Hto Hout Hst Hjson Hlk Hnn.
  rewrite (authenticate_unheld transport s Htok).
  rewrite (login_run_responded transport k (login_body (self s))
             (logging INFO "Authenticating..." s) r Htok Hk Hto Hout).
  unfold after_loop, response_json, py_get. rewrite Hst, Hjson, Hlk.
  replace (is_None token) with false by (destruct token; congruence || reflexivity).
  f_equal. unfold logging, storing, sending. cbn [self sent logged].
  rewrite retried_self, retried_sent, retried_logged. cbn [self sent logged].
  f_equal.
  - rewrite <- app_assoc. f_equal. apply repeat_snoc.
  - now rewrite <- !app_assoc.
Qed.

Lemma authenticate_stores_token_witness :
  authenticate (scripted [Raised Timeout] (Responded token_response)) (fresh example_client)
    = (inr tt,
       mkSys (mkClient "api-key" "user-key" "user" (JStr "abc123"))
             (repeat (login_request example_client) 2)
             [(INFO, "Authenticating...");
              (WARNING, "Authentication timed out, but will retry.");
              (INFO, "Authenticated successfully")]).
Proof.
  apply (authenticate_stores_token (scripted [Raised Timeout] (Responded token_response))
           (fresh example_client) 1 token_response [("token", JStr "abc123")]
           (JStr "abc123")).
  - reflexivity.
  - lia.
  - intros j Hj. assert (j = O) by lia. subst j. exists Timeout. split; reflexivity.
  - reflexivity.
  - reflexivity.
  - reflexivity.
  - reflexivity.
  - discriminate.
Defined.

Lemma after_loop_secrets res s1 :
  api_key (self (snd (after_loop res s1))) = api_key (self s1) /\
  user_key (self (snd (after_loop res s1))) = user_key (self s1) /\
  user_name (self (snd (after_loop res s1))) = user_name (self s1).
Proof.
  destruct res as [e|[r|]]; try (repeat split; reflexivity). simpl.
  destruct (failed_status r); [repeat split; reflexivity|].
  destruct (response_json r) as [e|content]; [repeat split; reflexivity|].
  destruct (py_get content "token") as [e|token]; [repeat split; reflexivity|].
  destruct (is_None token); repeat split; reflexivity.
Qed.

(** Whatever the transport does, [authenticate] keeps the three secrets and
    sends nothing but login POSTs built from them, three at most. *)
Theorem authenticate_keeps_secrets transport s :
  api_key (self (snd (authenticate transport s))) = api_key (self s) /\
  user_key (self (snd (authenticate transport s))) = user_key (self s) /\
  user_name (self (snd (authenticate transport s))) = user_name (self s) /\
  exists n, (n <= 3)%nat /\
    sent (snd (authenticate transport s))
      = (sent s ++ repeat (mkRequest POST "https://api.thetvdb.com/login"
                             (Some (JDict [("apikey", JStr (api_key (self s)));
                                           ("userkey", JStr (user_key (self s)));
                                           ("username", JStr (user_name (self s)))]))
                             [("Accept", Lit "application/json")] 3%Q) n)%list.
Proof.
  assert (Hkeys :
    api_key (self (snd (authenticate transport s))) = api_key (self s) /\
    user_key (self (snd (authenticate transport s))) = user_key (self s) /\
    user_name (self (snd (authenticate transport s))) = user_name (self s)).
  { destruct (auth_token (self s)) eqn:Htok;
      try (rewrite authenticate_held by (rewrite Htok; discriminate);
           repeat split; reflexivity).
    rewrite (authenticate_unheld transport s Htok).
    destruct (login_loop_sent transport (range 0 Constants.MAX_AUTH_RETRY_COUNT)
                (login_body (self s)) (logging INFO "Authenticating..." s) Htok)
      as (n & _ & _ & _ & Hc).
    destruct (login_loop transport _ _ _) as [res s1].
    destruct (after_loop_secrets res s1) as (H1 & H2 & H3).
    cbn [snd self logging] in Hc. rewrite H1, H2, H3, Hc. repeat split; reflexivity. }
  destruct Hkeys as (H1 & H2 & H3). repeat split; try assumption.
  destruct (authenticate_sent transport s) as (n & Hn & _ & _ & Hs).
  exists n. split; [exact Hn|exact Hs].
Qed.

(** A login answered with a status in 200..299 and a body that is not JSON
    raises [JSONDecodeError]; the client is left without a token. *)
Theorem authenticate_body_not_json transport s k r :
  auth_token (self s) = JNull ->
  (k < 3)%nat ->
  (forall j, (j < k)%nat ->
     timed_out transport (sent s ++ repeat (login_request (self s)) j)%list
               (login_request (self s))) ->
  transport (sent s ++ repeat (login_request (self s)) k)%list (login_request (self s))
    = Responded r ->
  failed_status r = false ->
  resp_json r = None ->
  fst (authenticate transport s) = inl JSONDecodeError /\
  self (snd (authenticate transport s)) = self s.
Proof.
  intros Htok Hk Hto Hout Hst Hjson.
  rewrite (authenticate_unheld transport s Htok).
  rewrite (login_run_responded transport k (login_body (self s))
             (logging INFO "Authenticating..." s) r Htok Hk Hto Hout).
  unfold after_loop, response_json. rewrite Hst, Hjson. cbn [fst snd].
  split; [reflexivity|]. cbn [self sending]. now rewrite retried_self.
Qed.

Lemma authenticate_body_not_json_witness :
  fst (authenticate (scripted [] (Responded (mkResponse 204 EmptyString None)))
                    (fresh example_client)) = inl JSONDecodeError /\
  self (snd (authenticate (scripted [] (Responded (mkResponse 204 EmptyString None)))
                          (fresh example_client))) = example_client.
Proof.
  apply (authenticate_body_not_json
           (scripted [] (Responded (mkResponse 204 EmptyString None)))
           (fresh example_client) 0 (mkResponse 204 EmptyString None)).
  - reflexivity.
  - lia.
  - intros j Hj. lia.
  - reflexivity.
  - reflexivity.
  - reflexivity.
Defined.

(** ** get, beyond the classification *)

Lemma filter_GET_logins c n :
  filter is_GET (repeat (login_request c) n) = [].
Proof. induction n as [|n IH]; simpl; [reflexivity|exact IH]. Qed.

(** What [get] does for a client that holds a token: the one GET, and no
    change to the client. *)
Lemma get_held transport path t s :
  path <> EmptyString ->
  auth_token (self s) <> JNull ->
  sent (snd (get transport (Some path) t s))
    = (sent s ++ [get_request (auth_token (self s)) path t])%list /\
  self (snd (get transport (Some path) t s)) = self s.
Proof.
  intros Hpath Htok.
  rewrite (get_unfold transport path t s Hpath), (authenticate_held transport s Htok).
  cbn [self sent logging].
  destruct (transport (sent s) _) as [r|e]; split; reflexivity.
Qed.

(** What a [get] that returns went through. *)
Lemma get_returned transport path t s data s' :
  get transport path t s = (inr data, s') ->
  data <> JNull /\
  exists p s1 r items,
    path = Some p /\ p <> EmptyString /\
    authenticate transport s = (inr tt, s1) /\
    transport (sent s1) (get_request (auth_token (self s1)) p t) = Responded r /\
    failed_status r = false /\
    resp_json r = Some (JDict items) /\
    lookup items "data" = Some data /\
    s' = got p t s1.
Proof.
  intros H. destruct path as [p|]; [|discriminate H].
  destruct (string_dec p EmptyString) as [->|Hp]; [discriminate H|].
  rewrite (get_unfold transport p t s Hp) in H.
  destruct (authenticate transport s) as [[e|[]] s1] eqn:Ha; [discriminate H|].
  destruct (transport (sent s1) _) as [r|e] eqn:Hout; [|discriminate H].
  unfold classify, response_json in H.
  destruct (failed_status r) eqn:Hst.
  - destruct (resp_json r) as [d|]; [|discriminate H].
    destruct (py_get d "Error") as [e|error]; [discriminate H|].
    destruct (is_None error); [discriminate H|].
    destruct (eq_str error "Resource not found"); discriminate H.
  - destruct (resp_json r) as [content|] eqn:Hjson; [|discriminate H].
    destruct content as [| | | | | |items]; try discriminate H.
    unfold py_get in H.
    destruct (lookup items "data") as [d|] eqn:Hlk; [|discriminate H].
    destruct (is_None d) eqn:Hd; [discriminate H|].
    injection H as <- <-.
    split; [destruct d; congruence || discriminate|].
    exists p, s1, r, items. repeat split; assumption.
Qed.

(** A transport exception of the GET, a timeout included, is raised by
    [get] as it is: the GET is the last request sent, it is not repeated, and
    the client is not touched. *)
Theorem get_propagates_transport_error transport path t s s1 e :
  path <> EmptyString ->
  authenticate transport s = (inr tt, s1) ->
  transport (sent s1) (get_request (auth_token (self s1)) path t) = Raised e ->
  fst (get transport (Some path) t s) = inl (Requests e) /\
  sent (snd (get transport (Some path) t s))
    = (sent s1 ++ [get_request (auth_token (self s1)) path t])%list /\
  self (snd (get transport (Some path) t s)) = self s1.
Proof.
  intros Hpath Hauth Hout.
  rewrite (get_unfold transport path t s Hpath), Hauth, Hout.
  repeat split; reflexivity.
Qed.

Lemma get_propagates_transport_error_witness :
  fst (get (login_ok (Raised ReadTimeout)) (Some "series/1") 10%Q (fresh example_client))
    = inl (Requests ReadTimeout) /\
  sent (snd (get (login_ok (Raised ReadTimeout)) (Some "series/1") 10%Q
                 (fresh example_client)))
    = [login_request example_client; get_request (JStr "abc123") "series/1" 10%Q].
Proof.
  destruct (get_propagates_transport_error (login_ok (Raised ReadTimeout)) "series/1" 10%Q
              (fresh example_client) (logged_in (Raised ReadTimeout)) ReadTimeout)
    as (H1 & H2 & _).
  - discriminate.
  - reflexivity.
  - reflexivity.
  - split; [exact H1|exact H2].
Defined.

(** When [authenticate] fails, [get] raises its error and stops there: no
    GET is sent, nothing more is logged, and the client is as it was. *)
Theorem get_stops_when_authenticate_fails transport path t s s1 e :
  path <> EmptyString ->
  authenticate transport s = (inl e, s1) ->
  get transport (Some path) t s = (inl e, s1) /\
  filter is_GET (sent s1) = filter is_GET (sent s) /\
  self s1 = self s.
Proof.
  intros Hpath Hauth.
  rewrite (get_unfold transport path t s Hpath), Hauth.
  split; [reflexivity|].
  destruct (authenticate_sent transport s) as (n & _ & _ & _ & Hs).
  pose proof (authenticate_failed_self transport s e) as Hself.
  rewrite Hauth in Hs, Hself. cbn [fst snd] in Hs, Hself.
  split; [|exact (Hself eq_refl)].
  rewrite Hs, filter_app, filter_GET_logins. apply app_nil_r.
Qed.

Lemma get_stops_when_authenticate_fails_witness :
  fst (get (scripted [] (Responded (mkResponse 403 "Forbidden" None))) (Some "series/1")
           10%Q (fresh example_client))
    = inl (TVDBAuthenticationException "Authentication failed with status code: 403") /\
  filter is_GET
         (sent (snd (authenticate (scripted [] (Responded (mkResponse 403 "Forbidden" None)))
                                  (fresh example_client))))
    = [].
Proof.
  destruct (get_stops_when_authenticate_fails
              (scripted [] (Responded (mkResponse 403 "Forbidden" None))) "series/1" 10%Q
              (fresh example_client)
              (snd (authenticate (scripted [] (Responded (mkResponse 403 "Forbidden" None)))
                                 (fresh example_client)))
              (TVDBAuthenticationException "Authentication failed with status code: 403"))
    as (H1 & H2 & _).
  - discriminate.
  - reflexivity.
  - split; [now rewrite H1 | exact H2].
Defined.

(** A response with a status in 200..299 and a body that is not JSON makes
    [get] raise [JSONDecodeError]: only error responses have their decoding
    failure turned into [TVDBException]. *)
Theorem get_success_body_not_json transport path t s s1 r :
  path <> EmptyString ->
  authenticate transport s = (inr tt, s1) ->
  transport (sent s1) (get_request (auth_token (self s1)) path t) = Responded r ->
  failed_status r = false ->
  resp_json r = None ->
  fst (get transport (Some path) t s) = inl JSONDecodeError.
Proof.
  intros Hpath Hauth Hout Hst Hjson.
  rewrite (get_unfold transport path t s Hpath), Hauth, Hout.
  unfold classify, response_json. now rewrite Hst, Hjson.
Qed.

Lemma get_success_body_not_json_witness :
  fst (get (login_ok (Responded (mkResponse 200 "<html>" None))) (Some "series/1") 10%Q
           (fresh example_client))
    = inl JSONDecodeError.
Proof.
  apply (get_success_body_not_json (login_ok (Responded (mkResponse 200 "<html>" None)))
           "series/1" 10%Q (fresh example_client)
           (logged_in (Responded (mkResponse 200 "<html>" None)))
           (mkResponse 200 "<html>" None)).
  - discriminate.
  - reflexivity.
  - reflexivity.
  - reflexivity.
  - reflexivity.
Defined.

(** [get] returns only the [data] of a JSON object that answered its GET
    with a status in 200..299, and never [None]; the client then holds a
    token. *)
Theorem get_returns_data_field transport path t s data s' :
  get transport path t s = (inr data, s') ->
  data <> JNull /\
  auth_token (self s') <> JNull /\
  exists p r items,
    path = Some p /\ p <> EmptyString /\
    last (sent s') (login_request (self s))
      = mkRequest GET (_BASE_API ++ "/" ++ p) None
                  [("Accept", Lit "application/json");
                   ("Authorization", Bearer (auth_token (self s')))] t /\
    transport (removelast (sent s')) (last (sent s') (login_request (self s)))
      = Responded r /\
    200 <= status_code r < 300 /\
    resp_json r = Some (JDict items) /\
    lookup items "data" = Some data.
Proof.
  intros H.
  destruct (get_returned transport path t s data s' H)
    as (Hd & p & s1 & r & items & -> & Hp & Hauth & Hout & Hst & Hjson & Hlk & ->).
  split; [exact Hd|].
  pose proof (authenticate_succeeded_token transport s) as Htok.
  rewrite Hauth in Htok. specialize (Htok eq_refl). cbn [snd] in Htok.
  split; [exact Htok|].
  exists p, r, items. unfold got. cbn [self sent sending logging].
  rewrite last_last, removelast_last.
  repeat split; try assumption; try reflexivity.
  - unfold failed_status in Hst. apply orb_false_iff in Hst. lia.
  - unfold failed_status in Hst. apply orb_false_iff in Hst. lia.
Qed.

Lemma get_returns_data_field_witness :
  JDict [("id", JInt 42)] <> JNull /\
  auth_token (self (snd (get (login_ok (Responded data_response)) (Some "series/42") 10%Q
                             (fresh example_client)))) <> JNull.
Proof.
  destruct (get_returns_data_field (login_ok (Responded data_response)) (Some "series/42")
              10%Q (fresh example_client) (JDict [("id", JInt 42)])
              (snd (get (login_ok (Responded data_response)) (Some "series/42") 10%Q
                        (fresh example_client))))
    as (H1 & H2 & _).
  - reflexivity.
  - split; [exact H1|exact H2].
Defined.

(** A client that holds a token sends, on [get], exactly one request and no
    login: a GET of the base URL, a slash and the path, with the token as
    bearer, whatever comes back; the client is not touched. *)
Theorem get_sends_one_request_when_authenticated transport path t s :
  path <> EmptyString ->
  auth_token (self s) <> JNull ->
  sent (snd (get transport (Some path) t s))
    = (sent s ++ [mkRequest GET ("https://api.thetvdb.com/" ++ path) None
                            [("Accept", Lit "application/json");
                             ("Authorization", Bearer (auth_token (self s)))] t])%list /\
  self (snd (get transport (Some path) t s)) = self s.
Proof.
  intros Hpath Htok. exact (get_held transport path t s Hpath Htok).
Qed.

Lemma get_sends_one_request_when_authenticated_witness :
  sent (snd (get (scripted [] (Raised ConnectionError)) (Some "series/7") 5%Q
                 (mkSys (mkClient "k" "u" "n" (JStr "tok")) [] [])))
    = [mkRequest GET "https://api.thetvdb.com/series/7" None
                 [("Accept", Lit "application/json"); ("Authorization", Bearer (JStr "tok"))]
                 5%Q].
Proof.
  destruct (get_sends_one_request_when_authenticated (scripted [] (Raised ConnectionError))
              "series/7" 5%Q (mkSys (mkClient "k" "u" "n" (JStr "tok")) [] []))
    as (H & _).
  - discriminate.
  - discriminate.
  - exact H.
Defined.

(** After a [get] that returned, a further [get] on the same client
    logs in no more: it sends its one GET, with the token the first call
    left. *)
Theorem get_reuses_token transport path1 t1 s data s1 path2 t2 :
  get transport path1 t1 s = (inr data, s1) ->
  path2 <> EmptyString ->
  sent (snd (get transport (Some path2) t2 s1))
    = (sent s1 ++ [get_request (auth_token (self s1)) path2 t2])%list /\
  self (snd (get transport (Some path2) t2 s1)) = self s1.
Proof.
  intros H Hpath.
  destruct (get_returned transport path1 t1 s data s1 H)
    as (_ & p & s0 & r & items & _ & _ & Hauth & _ & _ & _ & _ & ->).
  apply get_held; [exact Hpath|].
  pose proof (authenticate_succeeded_token transport s) as Htok.
  rewrite Hauth in Htok. exact (Htok eq_refl).
Qed.

Lemma get_reuses_token_witness :
  sent (snd (get (login_ok (Responded data_response)) (Some "series/43") 10%Q
                 (snd (get (login_ok (Responded data_response)) (Some "series/42") 10%Q
                           (fresh example_client)))))
    = [login_request example_client;
       get_request (JStr "abc123") "series/42" 10%Q;
       get_request (JStr "abc123") "series/43" 10%Q].
Proof.
  destruct (get_reuses_token (login_ok (Responded data_response)) (Some "series/42") 10%Q
              (fresh example_client) (JDict [("id", JInt 42)])
              (snd (get (login_ok (Responded data_response)) (Some "series/42") 10%Q
                        (fresh example_client)))
              "series/43" 10%Q) as (H & _).
  - reflexivity.
  - discriminate.
  - rewrite H. reflexivity.
Defined.

(** ** Headers *)

Lemma header_lookup_dict_set d name value k :
  header_lookup (dict_set d name value) k
    = if String.eqb name k then Some value else header_lookup d k.
Proof.
  induction d as [|[k0 v0] rest IH]; simpl.
  - reflexivity.
  - destruct (String.eqb k0 name) eqn:E0; simpl.
    + apply String.eqb_eq in E0. subst k0. destruct (String.eqb name k); reflexivity.
    + rewrite IH. destruct (String.eqb k0 k) eqn:E1; [|reflexivity].
      apply String.eqb_eq in E1. subst k0. now rewrite String.eqb_sym, E0.
Qed.

Lemma dict_set_keys d name value x :
  In x (map fst (dict_set d name value)) <-> x = name \/ In x (map fst d).
Proof.
  induction d as [|[k0 v0] rest IH]; simpl.
  - intuition.
  - destruct (String.eqb k0 name) eqn:E0; simpl.
    + apply String.eqb_eq in E0. subst k0. intuition.
    + rewrite IH. intuition.
Qed.

Lemma dict_set_NoDup d name value :
  NoDup (map fst d) -> NoDup (map fst (dict_set d name value)).
Proof.
  induction d as [|[k0 v0] rest IH]; simpl; intros Hd.
  - constructor; [intros []|constructor].
  - inversion Hd as [|? ? Hin Hrest]; subst.
    destruct (String.eqb k0 name) eqn:E0; simpl.
    + constructor; assumption.
    + constructor; [|apply IH; exact Hrest].
      rewrite dict_set_keys. intros [->|H]; [|contradiction].
      now rewrite String.eqb_refl in E0.
Qed.

Lemma header_lookup_snoc (l : Headers) k v name :
  header_lookup (l ++ [(k, v)])%list name
    = match header_lookup l name with
      | Some x => Some x
      | None => if String.eqb k name then Some v else None
      end.
Proof.
  induction l as [|[k0 v0] rest IH]; simpl; [reflexivity|].
  destruct (String.eqb k0 name); [reflexivity|exact IH].
Qed.

Lemma fold_dict_set more : forall d,
  (NoDup (map fst d) ->
   NoDup (map fst (fold_left (fun h kv => dict_set h (fst kv) (snd kv)) more d))) /\
  forall name,
    header_lookup (fold_left (fun h kv => dict_set h (fst kv) (snd kv)) more d) name
      = match header_lookup (rev more) name with
        | Some v => Some v
        | None => header_lookup d name
        end.
Proof.
  induction more as [|[k v] more IH]; intros d; simpl.
  - split; [auto|reflexivity].
  - destruct (IH (dict_set d k v)) as (Hnd & Hlk). split.
    + intros Hd. apply Hnd, dict_set_NoDup, Hd.
    + intros name. rewrite Hlk, header_lookup_snoc, header_lookup_dict_set.
      destruct (header_lookup (rev more) name); [reflexivity|].
      destruct (String.eqb k name); reflexivity.
Qed.

(** [_construct_headers] leaves the session alone and returns headers with
    distinct names in which each additional header has the value given
    last for its name, and every other name has its default: [Accept], and
    [Authorization] with the bearer token when one is held. *)
Theorem construct_headers_overrides additional s :
  exists h,
    _construct_headers additional s = (inr h, s) /\
    NoDup (map fst h) /\
    forall name,
      header_lookup h name
        = match header_lookup
                  (rev (match additional with Some more => more | None => [] end)) name with
          | Some v => Some v
          | None =>
              if String.eqb "Accept" name then Some (Lit "application/json")
              else if negb (is_None (auth_token (self s))) && String.eqb "Authorization" name
                   then Some (Bearer (auth_token (self s)))
                   else None
          end.
Proof.
  assert (Hdef : NoDup (map fst (default_headers (auth_token (self s)))) /\
                 forall name,
                   header_lookup (default_headers (auth_token (self s))) name
                   = if String.eqb "Accept" name then Some (Lit "application/json")
                     else if negb (is_None (auth_token (self s)))
                             && String.eqb "Authorization" name
                          then Some (Bearer (auth_token (self s)))
                          else None).
  { unfold default_headers. destruct (is_None (auth_token (self s))); simpl.
    - split; [repeat constructor; intros []|].
      intros name. destruct (String.eqb "Accept" name); reflexivity.
    - split.
      + repeat constructor; simpl; [intros [H|[]]; discriminate H | intros []].
      + intros name. destruct (String.eqb "Accept" name); [reflexivity|].
        destruct (String.eqb "Authorization" name); reflexivity. }
  destruct Hdef as (Hnd & Hlk).
  assert (Hrun : _construct_headers additional s
                 = (inr (match additional with
                         | None => default_headers (auth_token (self s))
                         | Some more =>
                             fold_left (fun h kv => dict_set h (fst kv) (snd kv)) more
                                       (default_headers (auth_token (self s)))
                         end), s)).
  { unfold _construct_headers, default_headers, bind, read_auth_token, ret.
    destruct (is_None (auth_token (self s))); destruct additional; reflexivity. }
  rewrite Hrun. eexists. split; [reflexivity|].
  destruct additional as [more|].
  - destruct (fold_dict_set more (default_headers (auth_token (self s)))) as (H1 & H2).
    split; [exact (H1 Hnd)|]. intros name. rewrite H2, Hlk. reflexivity.
  - split; [exact Hnd|]. intros name. simpl. apply Hlk.
Qed.


(** ** The encoded name *)

Lemma bytes_app a b : bytes (a ++ b) = (bytes a ++ bytes b)%list.
Proof. induction a as [|c a IH]; simpl; [reflexivity|]. now rewrite IH. Qed.

Lemma quote_byte_safe a :
  forallb (fun c => always_safe c || Ascii.eqb c "%") (bytes (quote_byte a)) = true.
Proof.
  destruct a as [[] [] [] [] [] [] [] []]; vm_compute; reflexivity.
Qed.

Lemma quote_byte_of_safe a : always_safe a = true -> quote_byte a = String a EmptyString.
Proof. intros H. unfold quote_byte. now rewrite H. Qed.

(** What [search_show] puts after [name=] holds nothing but letters,
    digits, [_], [.], [-], [~], [/] and [%]: no character of the name can
    end or extend the query.  A name made of the first seven kinds only is
    sent as it is. *)
Theorem quote_leaves_no_reserved_character name :
  forallb (fun c => always_safe c || Ascii.eqb c "%") (bytes (quote name)) = true /\
  (forallb always_safe (bytes name) = true -> quote name = name).
Proof.
  split.
  - induction name as [|a name IH]; [reflexivity|].
    cbn [quote]. rewrite bytes_app, forallb_app, quote_byte_safe, IH. reflexivity.
  - induction name as [|a name IH]; intros H; [reflexivity|].
    cbn [bytes forallb] in H. apply andb_true_iff in H. destruct H as (Ha & Hrest).
    cbn [quote]. rewrite (quote_byte_of_safe a Ha), (IH Hrest). reflexivity.
Qed.

Lemma quote_leaves_no_reserved_character_witness :
  quote "Doctor_Who-2005" = "Doctor_Who-2005".
Proof.
  apply (proj2 (quote_leaves_no_reserved_character "Doctor_Who-2005")).
  reflexivity.
Defined.

(** ** Construction and the keychain *)

(** The keychain matters to the constructor only at the labels of the
    arguments that are [None]: two keychains that agree there give the same
    client or the same error. *)
Theorem init_prefers_arguments keychain1 keychain2 a_key u_key u_name :
  (a_key = None -> keychain1 "libtvdb_api_key" = keychain2 "libtvdb_api_key") ->
  (u_key = None -> keychain1 "libtvdb_user_key" = keychain2 "libtvdb_user_key") ->
  (u_name = None -> keychain1 "libtvdb_user_name" = keychain2 "libtvdb_user_name") ->
  __init__ keychain1 a_key u_key u_name = __init__ keychain2 a_key u_key u_name.
Proof.
  intros Ha Hu Hn. unfold __init__.
  destruct a_key as [k|]; [|rewrite (Ha eq_refl)];
    (destruct u_key as [u|]; [|rewrite (Hu eq_refl)]);
    (destruct u_name as [n|]; [|rewrite (Hn eq_refl)]); reflexivity.
Qed.

Lemma init_prefers_arguments_witness :
  __init__ (fun _ => Some "from-keychain") (Some "mine") None None
    = __init__ (fun label => if String.eqb label "libtvdb_api_key" then None
                             else Some "from-keychain")
               (Some "mine") None None.
Proof.
  apply (init_prefers_arguments (fun _ => Some "from-keychain")
           (fun label => if String.eqb label "libtvdb_api_key" then None
                         else Some "from-keychain")
           (Some "mine") None None).
  - discriminate.
  - reflexivity.
  - reflexivity.
Defined.

(** ** The operations built on get *)

Section Operations.

Variable transport : list Request -> Request -> Outcome.
Variable Show : Type.
Variable from_json : json -> Exc + Show.
Variable identifier : Show -> Z.
Variable Actor : Type.
Variable deserialize_Actor : json -> Exc + Actor.

Lemma collect_shows_failure converted_data converted x rest e :
  Forall2 (fun d y => from_json d = inr y) converted_data converted ->
  from_json x = inl e ->
  forall shows s,
    collect_shows Show from_json (converted_data ++ x :: rest) shows s = (inl e, s).
Proof.
  intros Hconv Hx. induction Hconv as [|d y ds ys Hdy _ IH]; intros shows s; simpl.
  - unfold bind, lift. now rewrite Hx.
  - unfold bind, lift. rewrite Hdy. unfold ret at 1. apply IH.
Qed.

Lemma collect_actors_state actor_data : forall actors s,
  snd (collect_actors Actor deserialize_Actor actor_data actors s) = s.
Proof.
  induction actor_data as [|x rest IH]; intros actors s; [reflexivity|].
  simpl. unfold bind, lift. destruct (deserialize_Actor x) as [e|actor]; [reflexivity|].
  apply IH.
Qed.

Lemma collect_actors_converted actor_data converted :
  Forall2 (fun d y => deserialize_Actor d = inr y) actor_data converted ->
  forall actors s,
    collect_actors Actor deserialize_Actor actor_data actors s
      = (inr (actors ++ converted)%list, s).
Proof.
  induction 1 as [|x y rest ys Hxy _ IH]; intros actors s; simpl.
  - now rewrite app_nil_r.
  - unfold bind, lift. rewrite Hxy. unfold ret at 1. rewrite IH.
    now rewrite <- app_assoc.
Qed.

Lemma collect_actors_failure converted_data converted x rest e :
  Forall2 (fun d y => deserialize_Actor d = inr y) converted_data converted ->
  deserialize_Actor x = inl e ->
  forall actors s,
    collect_actors Actor deserialize_Actor (converted_data ++ x :: rest) actors s
      = (inl e, s).
Proof.
  intros Hconv Hx. induction Hconv as [|d y ds ys Hdy _ IH]; intros actors s; simpl.
  - unfold bind, lift. now rewrite Hx.
  - unfold bind, lift. rewrite Hdy. unfold ret at 1. apply IH.
Qed.

Lemma show_path_not_empty show_identifier : show_path show_identifier <> EmptyString.
Proof. discriminate. Qed.

Lemma actors_path_not_empty show_identifier : actors_path show_identifier <> EmptyString.
Proof. discriminate. Qed.

Lemma show_info_unfold show_identifier t s :
  show_info transport Show from_json show_identifier t s =
    match get transport (Some (show_path show_identifier)) t
              (logging INFO ("Fetching data for show: " ++ str_of_int show_identifier) s) with
    | (inl e, s') => (inl e, s')
    | (inr show_data, s') => (from_json show_data, s')
    end.
Proof.
  unfold show_info, show_path. unfold bind at 1. unfold Log at 1. cbv beta iota.
  unfold bind at 1.
  fold (logging INFO ("Fetching data for show: " ++ str_of_int show_identifier) s).
  destruct (get transport _ t _) as [[e|show_data] s']; [reflexivity|].
  unfold lift. destruct (from_json show_data); reflexivity.
Qed.

Lemma actors_from_show_id_unfold show_identifier t s :
  actors_from_show_id transport Actor deserialize_Actor show_identifier t s =
    match get transport (Some (actors_path show_identifier)) t
              (logging INFO ("Fetching actors for show id: " ++ str_of_int show_identifier)
                       s) with
    | (inl e, s') => (inl e, s')
    | (inr actor_data, s') =>
        match py_iter actor_data with
        | inl e => (inl e, s')
        | inr items => collect_actors Actor deserialize_Actor items [] s'
        end
    end.
Proof.
  unfold actors_from_show_id, actors_path. unfold bind at 1. unfold Log at 1.
  cbv beta iota. unfold bind at 1.
  fold (logging INFO ("Fetching actors for show id: " ++ str_of_int show_identifier) s).
  destruct (get transport _ t _) as [[e|actor_data] s']; [reflexivity|].
  unfold bind, lift. destruct (py_iter actor_data) as [e|items]; reflexivity.
Qed.

End Operations.

Lemma search_show_state transport Show from_json name t s :
  name <> EmptyString ->
  snd (search_show transport Show from_json (Some name) t s)
    = snd (get transport (Some (search_path name)) t
               (logging INFO ("Searching for show: " ++ name) s)).
Proof.
  intros Hname. rewrite (search_show_unfold transport Show from_json name t s Hname).
  destruct (get transport _ t _) as [[e|d] s']; [reflexivity|].
  destruct (py_iter d) as [e|items]; [reflexivity|]. apply collect_shows_state.
Qed.

Lemma show_info_state transport Show from_json show_identifier t s :
  snd (show_info transport Show from_json show_identifier t s)
    = snd (get transport (Some (show_path show_identifier)) t
               (logging INFO ("Fetching data for show: " ++ str_of_int show_identifier) s)).
Proof.
  rewrite show_info_unfold. destruct (get transport _ t _) as [[e|d] s']; reflexivity.
Qed.

Lemma actors_from_show_id_state transport Actor deserialize_Actor show_identifier t s :
  snd (actors_from_show_id transport Actor deserialize_Actor show_identifier t s)
    = snd (get transport (Some (actors_path show_identifier)) t
               (logging INFO ("Fetching actors for show id: "
                                ++ str_of_int show_identifier) s)).
Proof.
  rewrite actors_from_show_id_unfold.
  destruct (get transport _ t _) as [[e|d] s']; [reflexivity|].
  destruct (py_iter d) as [e|items]; [reflexivity|]. apply collect_actors_state.
Qed.

(** On a client that holds a token, each operation sends exactly one
    request, the GET of its own path with the token as bearer, whatever comes
    back, and leaves the client as it is; [actors_from_show] asks for the
    actors of the show's identifier. *)
Theorem operations_send_one_get
        transport Show from_json identifier Actor deserialize_Actor s t :
  auth_token (self s) <> JNull ->
  (forall name, name <> EmptyString ->
     sent (snd (search_show transport Show from_json (Some name) t s))
       = (sent s ++ [get_request (auth_token (self s))
                                 ("search/series?name=" ++ quote name) t])%list /\
     self (snd (search_show transport Show from_json (Some name) t s)) = self s) /\
  (forall show_identifier,
     sent (snd (show_info transport Show from_json show_identifier t s))
       = (sent s ++ [get_request (auth_token (self s))
                                 ("series/" ++ str_of_int show_identifier) t])%list /\
     self (snd (show_info transport Show from_json show_identifier t s)) = self s) /\
  (forall show_identifier,
     sent (snd (actors_from_show_id transport Actor deserialize_Actor show_identifier t s))
       = (sent s ++ [get_request (auth_token (self s))
                                 ("series/" ++ str_of_int show_identifier ++ "/actors")
                                 t])%list /\
     self (snd (actors_from_show_id transport Actor deserialize_Actor show_identifier t s))
       = self s) /\
  (forall show : Show,
     sent (snd (actors_from_show transport Show identifier Actor deserialize_Actor show t s))
       = (sent s ++ [get_request (auth_token (self s))
                                 ("series/" ++ str_of_int (identifier show) ++ "/actors")
                                 t])%list /\
     self (snd (actors_from_show transport Show identifier Actor deserialize_Actor show t s))
       = self s).
Proof.
  intros Htok.
  assert (Hget : forall path l msg, path <> EmptyString ->
            sent (snd (get transport (Some path) t (logging l msg s)))
              = (sent s ++ [get_request (auth_token (self s)) path t])%list /\
            self (snd (get transport (Some path) t (logging l msg s))) = self s).
  { intros path l msg Hpath.
    exact (get_held transport path t (logging l msg s) Hpath Htok). }
  repeat split.
  - rewrite search_show_state by assumption.
    apply (Hget (search_path name)), search_path_not_empty.
  - rewrite search_show_state by assumption.
    apply (Hget (search_path name)), search_path_not_empty.
  - rewrite show_info_state. apply (Hget (show_path show_identifier)), show_path_not_empty.
  - rewrite show_info_state. apply (Hget (show_path show_identifier)), show_path_not_empty.
  - rewrite actors_from_show_id_state.
    apply (Hget (actors_path show_identifier)), actors_path_not_empty.
  - rewrite actors_from_show_id_state.
    apply (Hget (actors_path show_identifier)), actors_path_not_empty.
  - unfold actors_from_show. rewrite actors_from_show_id_state.
    apply (Hget (actors_path (identifier show))), actors_path_not_empty.
  - unfold actors_from_show. rewrite actors_from_show_id_state.
    apply (Hget (actors_path (identifier show))), actors_path_not_empty.
Qed.

Lemma operations_send_one_get_witness :
  sent (snd (actors_from_show (scripted [] (Raised Timeout)) Z (fun z => z) json
                              (fun j => inr j) 73 10%Q
                              (mkSys (mkClient "k" "u" "n" (JStr "tok")) [] [])))
    = [get_request (JStr "tok") "series/73/actors" 10%Q].
Proof.
  destruct (operations_send_one_get (scripted [] (Raised Timeout)) Z (fun j => inl JSONDecodeError)
              (fun z => z) json (fun j => inr j)
              (mkSys (mkClient "k" "u" "n" (JStr "tok")) [] []) 10%Q)
    as (_ & _ & _ & H).
  - discriminate.
  - destruct (H 73) as (Hs & _). exact Hs.
Defined.

(** [search_show] raises [NotFoundException] when the service answers
    "Resource not found" and when a successful answer carries no [data]; an
    empty [data] array gives the empty list instead. *)
Theorem search_show_not_found transport Show from_json name t s s1 r items :
  name <> EmptyString ->
  authenticate transport (logging INFO ("Searching for show: " ++ name) s) = (inr tt, s1) ->
  transport (sent s1) (get_request (auth_token (self s1)) (search_path name) t)
    = Responded r ->
  resp_json r = Some (JDict items) ->
  (failed_status r = true -> lookup items "Error" = Some (JStr "Resource not found") ->
   fst (search_show transport Show from_json (Some name) t s)
     = inl (NotFoundException
              ("Could not find resource for path: search/series?name=" ++ quote name))) /\
  (failed_status r = false ->
   lookup items "data" = None \/ lookup items "data" = Some JNull ->
   fst (search_show transport Show from_json (Some name) t s)
     = inl (NotFoundException
              ("Could not get data for path: search/series?name=" ++ quote name))) /\
  (failed_status r = false -> lookup items "data" = Some (JList []) ->
   fst (search_show transport Show from_json (Some name) t s) = inr []).
Proof.
  intros Hname Hauth Hout Hjson.
  rewrite (search_show_unfold transport Show from_json name t s Hname).
  rewrite (get_unfold transport (search_path name) t _ (search_path_not_empty name)).
  rewrite Hauth, Hout. unfold classify, response_json, py_get. rewrite Hjson.
  repeat split.
  - intros -> ->. reflexivity.
  - intros -> [-> | ->]; reflexivity.
  - intros -> ->. reflexivity.
Qed.

Lemma search_show_not_found_witness :
  fst (search_show (login_ok (Responded not_found_response)) json (fun j => inr j)
                   (Some "no such show") 10%Q (fresh example_client))
    = inl (NotFoundException
             "Could not find resource for path: search/series?name=no%20such%20show").
Proof.
  destruct (search_show_not_found (login_ok (Responded not_found_response)) json
              (fun j => inr j) "no such show" 10%Q (fresh example_client)
              (snd (authenticate (login_ok (Responded not_found_response))
                      (logging INFO "Searching for show: no such show"
                               (fresh example_client))))
              not_found_response [("Error", JStr "Resource not found")])
    as (H & _).
  - discriminate.
  - reflexivity.
  - reflexivity.
  - reflexivity.
  - apply H; reflexivity.
Defined.

(** [search_show] gives no partial result: when [Show.from_json] raises on
    an element of the [data] array, the elements before it having been
    converted, [search_show] raises that exception. *)
Theorem search_show_conversion_failure
        transport Show from_json name t s s1 r items converted_data converted x rest e :
  name <> EmptyString ->
  authenticate transport (logging INFO ("Searching for show: " ++ name) s) = (inr tt, s1) ->
  transport (sent s1) (get_request (auth_token (self s1)) (search_path name) t)
    = Responded r ->
  failed_status r = false ->
  resp_json r = Some (JDict items) ->
  lookup items "data" = Some (JList (converted_data ++ x :: rest)) ->
  Forall2 (fun d y => from_json d = inr y) converted_data converted ->
  from_json x = inl e ->
  fst (search_show transport Show from_json (Some name) t s) = inl e.
Proof.
  intros Hname Hauth Hout Hst Hjson Hdata Hconv Hx.
  rewrite (search_show_unfold transport Show from_json name t s Hname).
  rewrite (get_unfold transport (search_path name) t _ (search_path_not_empty name)).
  rewrite Hauth, Hout. unfold classify, response_json, py_get.
  rewrite Hst, Hjson, Hdata. cbn [is_None py_iter].
  now rewrite (collect_shows_failure Show from_json converted_data converted x rest e
                 Hconv Hx).
Qed.

Lemma search_show_conversion_failure_witness :
  fst (search_show
         (login_ok (Responded (mkResponse 200 "[1, true]"
                       (Some (JDict [("data", JList [JInt 1; JBool true])])))))
         Z (fun j => match j with JInt z => inr z | _ => inl (TypeError "not a show") end)
         (Some "x") 10%Q (fresh example_client))
    = inl (TypeError "not a show").
Proof.
  apply (search_show_conversion_failure
           (login_ok (Responded (mkResponse 200 "[1, true]"
                         (Some (JDict [("data", JList [JInt 1; JBool true])])))))
           Z (fun j => match j with JInt z => inr z | _ => inl (TypeError "not a show") end)
           "x" 10%Q (fresh example_client)
           (snd (authenticate
                   (login_ok (Responded (mkResponse 200 "[1, true]"
                                 (Some (JDict [("data", JList [JInt 1; JBool true])])))))
                   (logging INFO "Searching for show: x" (fresh example_client))))
           (mkResponse 200 "[1, true]" (Some (JDict [("data", JList [JInt 1; JBool true])])))
           [("data", JList [JInt 1; JBool true])] [JInt 1] [1] (JBool true) []
           (TypeError "not a show")).
  - discriminate.
  - reflexivity.
  - reflexivity.
  - reflexivity.
  - reflexivity.
  - reflexivity.
  - repeat constructor.
  - reflexivity.
Defined.

(** [show_info] asks for [series/<identifier>], the identifier in decimal,
    and hands the [data] of the answer to [Show.from_json]: what that
    returns or raises is what [show_info] returns or raises. *)
Theorem show_info_converts_data
        transport Show from_json show_identifier t s s1 r items show_data :
  authenticate transport
      (logging INFO ("Fetching data for show: " ++ str_of_int show_identifier) s)
    = (inr tt, s1) ->
  transport (sent s1)
            (get_request (auth_token (self s1)) ("series/" ++ str_of_int show_identifier) t)
    = Responded r ->
  failed_status r = false ->
  resp_json r = Some (JDict items) ->
  lookup items "data" = Some show_data ->
  show_data <> JNull ->
  fst (show_info transport Show from_json show_identifier t s) = from_json show_data /\
  sent (snd (show_info transport Show from_json show_identifier t s))
    = (sent s1 ++ [get_request (auth_token (self s1))
                               ("series/" ++ str_of_int show_identifier) t])%list.
Proof.
  intros Hauth Hout Hst Hjson Hdata Hnn.
  rewrite show_info_unfold.
  rewrite (get_unfold transport (show_path show_identifier) t _
             (show_path_not_empty show_identifier)).
  rewrite Hauth. unfold show_path. rewrite Hout.
  unfold classify, response_json, py_get. rewrite Hst, Hjson, Hdata.
  replace (is_None show_data) with false by (destruct show_data; congruence || reflexivity).
  split; reflexivity.
Qed.

Lemma show_info_converts_data_witness :
  fst (show_info (login_ok (Responded data_response)) json (fun j => inr j) 42 10%Q
                 (fresh example_client))
    = inr (JDict [("id", JInt 42)]) /\
  sent (snd (show_info (login_ok (Responded data_response)) json (fun j => inr j) 42 10%Q
                       (fresh example_client)))
    = [login_request example_client; get_request (JStr "abc123") "series/42" 10%Q].
Proof.
  apply (show_info_converts_data (login_ok (Responded data_response)) json (fun j => inr j)
           42 10%Q (fresh example_client)
           (snd (authenticate (login_ok (Responded data_response))
                   (logging INFO "Fetching data for show: 42" (fresh example_client))))
           data_response [("data", JDict [("id", JInt 42)])] (JDict [("id", JInt 42)])).
  - reflexivity.
  - reflexivity.
  - reflexivity.
  - reflexivity.
  - reflexivity.
  - discriminate.
Defined.

(** [actors_from_show_id] asks for [series/<identifier>/actors] and
    deserializes the elements of the [data] array in order: it returns one
    [Actor] per element when all of them deserialize, and raises the
    exception of the first that does not. *)
Theorem actors_from_show_id_all_or_nothing
        transport Actor deserialize_Actor show_identifier t s s1 r items actor_data :
  authenticate transport
      (logging INFO ("Fetching actors for show id: " ++ str_of_int show_identifier) s)
    = (inr tt, s1) ->
  transport (sent s1)
            (get_request (auth_token (self s1))
                         ("series/" ++ str_of_int show_identifier ++ "/actors") t)
    = Responded r ->
  failed_status r = false ->
  resp_json r = Some (JDict items) ->
  lookup items "data" = Some (JList actor_data) ->
  (forall actors,
     Forall2 (fun d y => deserialize_Actor d = inr y) actor_data actors ->
     fst (actors_from_show_id transport Actor deserialize_Actor show_identifier t s)
       = inr actors /\
     length actors = length actor_data) /\
  (forall converted_data converted x rest e,
     actor_data = (converted_data ++ x :: rest)%list ->
     Forall2 (fun d y => deserialize_Actor d = inr y) converted_data converted ->
     deserialize_Actor x = inl e ->
     fst (actors_from_show_id transport Actor deserialize_Actor show_identifier t s)
       = inl e).
Proof.
  intros Hauth Hout Hst Hjson Hdata.
  rewrite actors_from_show_id_unfold.
  rewrite (get_unfold transport (actors_path show_identifier) t _
             (actors_path_not_empty show_identifier)).
  rewrite Hauth. unfold actors_path. rewrite Hout.
  unfold classify, response_json, py_get. rewrite Hst, Hjson, Hdata.
  cbn [is_None py_iter]. split.
  - intros actors Hconv.
    rewrite (collect_actors_converted Actor deserialize_Actor actor_data actors Hconv).
    split; [reflexivity|]. symmetry. exact (Forall2_length Hconv).
  - intros converted_data converted x rest e -> Hconv Hx.
    now rewrite (collect_actors_failure Actor deserialize_Actor converted_data converted
                   x rest e Hconv Hx).
Qed.

Lemma actors_from_show_id_all_or_nothing_witness :
  fst (actors_from_show_id (login_ok (Responded shows_response)) json (fun j => inr j)
                           5 10%Q (fresh example_client))
    = inr [JDict [("id", JInt 1)]; JDict [("id", JInt 2)]].
Proof.
  destruct (actors_from_show_id_all_or_nothing (login_ok (Responded shows_response)) json
              (fun j => inr j) 5 10%Q (fresh example_client)
              (snd (authenticate (login_ok (Responded shows_response))
                      (logging INFO "Fetching actors for show id: 5"
                               (fresh example_client))))
              shows_response
              [("data", JList [JDict [("id", JInt 1)]; JDict [("id", JInt 2)]])]
              [JDict [("id", JInt 1)]; JDict [("id", JInt 2)]]) as (H & _).
  - reflexivity.
  - reflexivity.
  - reflexivity.
  - reflexivity.
  - reflexivity.
  - destruct (H [JDict [("id", JInt 1)]; JDict [("id", JInt 2)]]) as (Hr & _).
    + repeat constructor.
    + exact Hr.
Defined.

(** A [data] that is a number or a boolean cannot be iterated: [search_show]
    raises [TypeError] after its one GET, without calling [Show.from_json]. *)
Theorem search_show_scalar_data transport Show from_json name t s s1 r items data :
  name <> EmptyString ->
  authenticate transport (logging INFO ("Searching for show: " ++ name) s) = (inr tt, s1) ->
  transport (sent s1) (get_request (auth_token (self s1)) (search_path name) t)
    = Responded r ->
  failed_status r = false ->
  resp_json r = Some (JDict items) ->
  lookup items "data" = Some data ->
  (exists z, data = JInt z) \/ (exists b, data = JBool b) \/ (exists f, data = JFloat f) ->
  fst (search_show transport Show from_json (Some name) t s)
    = inl (TypeError ("'" ++ type_name data ++ "' object is not iterable")).
Proof.
  intros Hname Hauth Hout Hst Hjson Hdata Hscalar.
  rewrite (search_show_unfold transport Show from_json name t s Hname).
  rewrite (get_unfold transport (search_path name) t _ (search_path_not_empty name)).
  rewrite Hauth, Hout. unfold classify, response_json, py_get.
  rewrite Hst, Hjson, Hdata.
  destruct Hscalar as [(z & ->)|[(b & ->)|(f & ->)]]; reflexivity.
Qed.

Lemma search_show_scalar_data_witness :
  fst (search_show
         (login_ok (Responded (mkResponse 200 "{}" (Some (JDict [("data", JBool false)])))))
         json (fun j => inr j) (Some "x") 10%Q (fresh example_client))
    = inl (TypeError "'bool' object is not iterable").
Proof.
  apply (search_show_scalar_data
           (login_ok (Responded (mkResponse 200 "{}" (Some (JDict [("data", JBool false)])))))
           json (fun j => inr j) "x" 10%Q (fresh example_client)
           (snd (authenticate
                   (login_ok (Responded (mkResponse 200 "{}"
                                 (Some (JDict [("data", JBool false)])))))
                   (logging INFO "Searching for show: x" (fresh example_client))))
           (mkResponse 200 "{}" (Some (JDict [("data", JBool false)])))
           [("data", JBool false)] (JBool false)).
  - discriminate.
  - reflexivity.
  - reflexivity.
  - reflexivity.
  - reflexivity.
  - reflexivity.
  - right. left. exists false. reflexivity.
Defined.

(** ** search_show and its one GET *)

(** Error responses whose body is JSON but not an object: [data.get] raises
    [AttributeError], whatever the value. *)
Lemma get_error_response_non_object transport path t s s1 r data :
  path <> EmptyString ->
  authenticate transport s = (inr tt, s1) ->
  transport (sent s1) (get_request (auth_token (self s1)) path t) = Responded r ->
  failed_status r = true ->
  resp_json r = Some data ->
  (forall items, data <> JDict items) ->
  fst (get transport (Some path) t s)
    = inl (AttributeError ("'" ++ type_name data ++ "' object has no attribute 'get'")).
Proof.
  intros Hpath Hauth Hout Hst Hjson Hobj.
  rewrite (get_unfold transport path t s Hpath), Hauth, Hout.
  unfold classify. rewrite Hst, Hjson.
  destruct data; try reflexivity. exfalso. exact (Hobj items eq_refl).
Qed.







